(** * Activity ranking service: scoring rules, classification and aggregation

    A shallow embedding of [backend/src/services/activityRankingService.js]
    and the properties of its scoring engine.

    JavaScript numbers are embedded as exact rationals extended with [NaN]
    and the two infinities.  Comparisons, [Math.min], [Math.max] and
    [Math.round] follow ECMAScript on these values; the arithmetic operators
    are the exact ones, so the binary64 rounding of [*], [+], [-] and [/]
    and the sign of zero are abstracted away.  Module [Binary64] embeds the
    same functions with that rounding, for the one property on which the
    two differ: the average of fractional daily scores. *)

From Stdlib Require Import QArith Qround Qminmax Lqa ZArith Lia SpecFloat.
From Stdlib Require Import List String Bool.
Import ListNotations.

(** ** JavaScript numbers *)

Module JS.

Inductive number : Type :=
| NaN
| NegInfinity
| Finite (q : Q)
| Infinity.

Declare Scope js_scope.
Delimit Scope js_scope with js.
Bind Scope js_scope with number.

Coercion Finite : Q >-> number.

Definition neg (x : number) : number :=
  match x with
  | NaN => NaN
  | NegInfinity => Infinity
  | Finite q => Finite (- q)
  | Infinity => NegInfinity
  end.

(** The sum, difference, product and quotient below are the exact ones:
    they agree with the binary64 operations of the source whenever the exact
    result is a binary64 number, as it is for the integers the rules add
    and subtract, and differ from them by the rounding otherwise (see
    [Binary64]). *)
Definition add (x y : number) : number :=
  match x, y with
  | NaN, _ | _, NaN => NaN
  | Infinity, NegInfinity | NegInfinity, Infinity => NaN
  | Infinity, _ | _, Infinity => Infinity
  | NegInfinity, _ | _, NegInfinity => NegInfinity
  | Finite a, Finite b => Finite (a + b)
  end.

Definition sub (x y : number) : number := add x (neg y).

(** The sign of a rational, used by the products and quotients that involve
    an infinity or a zero divisor. *)
Definition signed (q : Q) (pos : number) : number :=
  match (q ?= 0)%Q with
  | Eq => NaN
  | Gt => pos
  | Lt => neg pos
  end.

Definition mul (x y : number) : number :=
  match x, y with
  | NaN, _ | _, NaN => NaN
  | Finite a, Finite b => Finite (a * b)
  | Finite a, Infinity | Infinity, Finite a => signed a Infinity
  | Finite a, NegInfinity | NegInfinity, Finite a => signed a NegInfinity
  | Infinity, Infinity | NegInfinity, NegInfinity => Infinity
  | Infinity, NegInfinity | NegInfinity, Infinity => NegInfinity
  end.

Definition div (x y : number) : number :=
  match x, y with
  | NaN, _ | _, NaN => NaN
  | Finite a, Finite b =>
      if Qeq_bool b 0 then signed a Infinity else Finite (a / b)
  | Finite _, (Infinity | NegInfinity) => Finite 0
  | Infinity, Finite b =>
      if Qeq_bool b 0 then Infinity else signed b Infinity
  | NegInfinity, Finite b =>
      if Qeq_bool b 0 then NegInfinity else signed b NegInfinity
  | (Infinity | NegInfinity), (Infinity | NegInfinity) => NaN
  end.

(** [x < y]: false as soon as one side is [NaN]. *)
Definition lt (x y : number) : bool :=
  match x, y with
  | NaN, _ | _, NaN => false
  | _, NegInfinity => false
  | NegInfinity, _ => true
  | Infinity, _ => false
  | Finite _, Infinity => true
  | Finite a, Finite b =>
      match (a ?= b)%Q with Lt => true | _ => false end
  end.

(** [x === y] on numbers. *)
Definition strict_eq (x y : number) : bool :=
  match x, y with
  | NegInfinity, NegInfinity | Infinity, Infinity => true
  | Finite a, Finite b => Qeq_bool a b
  | _, _ => false
  end.

Definition gt (x y : number) : bool := lt y x.
Definition le (x y : number) : bool := lt x y || strict_eq x y.
Definition ge (x y : number) : bool := le y x.

Infix "+" := add : js_scope.
Infix "-" := sub : js_scope.
Infix "*" := mul : js_scope.
Infix "/" := div : js_scope.
Infix "<?" := lt : js_scope.
Infix ">?" := gt : js_scope.
Infix "<=?" := le : js_scope.
Infix ">=?" := ge : js_scope.
Infix "===" := strict_eq (at level 70, no associativity) : js_scope.

Module Math.

(** [Math.min(x, y)] and [Math.max(x, y)]: [NaN] if either argument is. *)
Definition min (x y : number) : number :=
  match x, y with
  | NaN, _ | _, NaN => NaN
  | _, _ => if lt y x then y else x
  end.

Definition max (x y : number) : number :=
  match x, y with
  | NaN, _ | _, NaN => NaN
  | _, _ => if lt x y then y else x
  end.

(** [Math.round(x)]: the nearest integer, a tie going towards +Infinity. *)
Definition round (x : number) : number :=
  match x with
  | Finite q => Finite (inject_Z (Qfloor (q + (1 # 2))))
  | other => other
  end.

End Math.

(** The value a number denotes: two finite numbers are the same number when
    their fractions are equal as rationals. *)
Definition same (x y : number) : Prop :=
  match x, y with
  | NaN, NaN | NegInfinity, NegInfinity | Infinity, Infinity => True
  | Finite a, Finite b => (a == b)%Q
  | _, _ => False
  end.

(** [x] is a finite number within the closed interval [lo, hi]. *)
Definition within (lo hi : Q) (x : number) : Prop :=
  match x with
  | Finite q => (lo <= q <= hi)%Q
  | _ => False
  end.

(** [x] is a finite number with an integral value ([Number.isInteger]). *)
Definition integral (x : number) : bool :=
  match x with
  | Finite q => Qeq_bool (inject_Z (Qfloor q)) q
  | _ => false
  end.

(** The rational a finite number holds. *)
Definition valueOf (x : number) : Q :=
  match x with
  | Finite q => q
  | _ => 0%Q
  end.

(** [Array.prototype.length] as a number. *)
Definition length {A : Type} (xs : list A) : number :=
  Finite (inject_Z (Z.of_nat (List.length xs))).

End JS.

Import JS.
Open Scope string_scope.
Open Scope js_scope.

(** Integer literals of the source denote finite numbers. *)
Definition number_of_Z (z : Z) : number := Finite (inject_Z z).
Definition number_to_Z (x : number) : option Z :=
  match x with
  | Finite (Qmake z 1) => Some z
  | _ => None
  end.
Number Notation number number_of_Z number_to_Z : js_scope.

(** ** Data model *)

Module DailyWeather.
Record t : Type := make {
  date : string;
  maxTemp : number;
  minTemp : number;
  precipitation : number;
  windSpeed : number;
  snowfall : number;
  cloudCover : number
}.
End DailyWeather.

Module ActivityDayScore.
Record t : Type := make {
  date : string;
  score : number;
  conditions : string
}.
End ActivityDayScore.

Module ActivityRanking.
Record t : Type := make {
  activity : string;
  averageScore : number;
  dailyScores : list ActivityDayScore.t;
  recommendation : string
}.
End ActivityRanking.

(** An entry of the [activities] table: a name bound to its scoring
    function. *)
Module Activity.
Record t : Type := make {
  name : string;
  scoreFn : DailyWeather.t -> number
}.
End Activity.

(** ** The service *)

Module ActivityRankingService.

Import DailyWeather.

(** The final statement of every scoring function,
    [Math.max(0, Math.min(100, score))]. *)
Definition clamp (score : number) : number :=
  Math.max 0 (Math.min 100 score).

(** [scoreSkiing] (lines 17-43): each [if] statement rebinds the local
    [score]. *)
Definition scoreSkiing (weather : DailyWeather.t) : number :=
  let score := 0 in
  let score :=
    if snowfall weather >? 0
    then score + Math.min 50 (snowfall weather * 5)
    else score in
  let score :=
    if maxTemp weather <? 2 then score + 30
    else if maxTemp weather <? 7 then score + 15
    else score in
  let score := if windSpeed weather >? 40 then score - 15 else score in
  let score := if precipitation weather >? 5 then score - 10 else score in
  clamp score.

(** The wind statement of [scoreSurfing] (lines 50-54), as a step on the
    local [score]. *)
Definition surfingWind (weather : DailyWeather.t) (score : number) : number :=
  if (windSpeed weather >? 10) && (windSpeed weather <? 35) then score + 25
  else if windSpeed weather >? 40 then score - 20
  else score.

(** The statements of [scoreSurfing] after the wind statement
    (lines 57-66). *)
Definition surfingRest (weather : DailyWeather.t) (score : number) : number :=
  let score := if maxTemp weather >? 18 then score + 20 else score in
  let score := if precipitation weather >? 8 then score - 15 else score in
  clamp score.

(** [scoreSurfing] (lines 46-67). *)
Definition scoreSurfing (weather : DailyWeather.t) : number :=
  let score := 50 in
  let score := surfingWind weather score in
  surfingRest weather score.

(** [scoreOutdoorSightseeing] (lines 70-93). *)
Definition scoreOutdoorSightseeing (weather : DailyWeather.t) : number :=
  let score := 60 in
  let score :=
    if cloudCover weather <? 40 then score + 20
    else if cloudCover weather >? 80 then score - 10
    else score in
  let score :=
    if (maxTemp weather >=? 15) && (maxTemp weather <=? 28) then score + 20
    else if (maxTemp weather <? 5) || (maxTemp weather >? 35) then score - 20
    else score in
  let score :=
    if precipitation weather >? 0
    then score - precipitation weather * 2
    else score in
  clamp score.

(** [scoreIndoorSightseeing] (lines 96-116). *)
Definition scoreIndoorSightseeing (weather : DailyWeather.t) : number :=
  let score := 70 in
  let score := if precipitation weather >? 5 then score + 15 else score in
  let score :=
    if (maxTemp weather <? 5) || (maxTemp weather >? 30) then score + 15
    else score in
  let score :=
    if (precipitation weather === 0) && (cloudCover weather <? 50)
       && (maxTemp weather >? 15) && (maxTemp weather <? 25)
    then score - 20
    else score in
  clamp score.

(** [getConditionDescription] (lines 119-124). *)
Definition getConditionDescription (score : number) : string :=
  if score >=? 75 then "Great"
  else if score >=? 60 then "Good"
  else if score >=? 40 then "OK"
  else "Poor".

(** [getRecommendation] (lines 127-135). *)
Definition getRecommendation (activity : string) (avgScore : number) : string :=
  if avgScore >=? 70 then "Perfect week for " ++ activity ++ "!"
  else if avgScore >=? 50 then "Decent conditions for " ++ activity ++ " this week."
  else "Not the best week for " ++ activity ++ ".".

(** The [activities] table (lines 139-144). *)
Definition activities : list Activity.t :=
  [ Activity.make "Skiing" scoreSkiing;
    Activity.make "Surfing" scoreSurfing;
    Activity.make "Outdoor Sightseeing" scoreOutdoorSightseeing;
    Activity.make "Indoor Sightseeing" scoreIndoorSightseeing ].

(** The body of the outer [map] callback (lines 146-164): the ranking of
    one activity.  The scoring function is called twice per day, once for
    [score] and once for [conditions]; [reduce] starts from 0 and the total
    is divided by the [length] of [dailyScores]. *)
Definition rankActivity (weatherData : list DailyWeather.t)
    (activity : Activity.t) : ActivityRanking.t :=
  let dailyScores :=
    map (fun day =>
           ActivityDayScore.make
             (date day)
             (Activity.scoreFn activity day)
             (getConditionDescription (Activity.scoreFn activity day)))
        weatherData in
  let totalScore :=
    fold_left (fun sum day => sum + ActivityDayScore.score day) dailyScores 0 in
  let averageScore := Math.round (totalScore / JS.length dailyScores) in
  ActivityRanking.make
    (Activity.name activity)
    averageScore
    dailyScores
    (getRecommendation (Activity.name activity) averageScore).

(** [calculateActivityRankings] (lines 138-165). *)
Definition calculateActivityRankings (weatherData : list DailyWeather.t)
    : list ActivityRanking.t :=
  map (rankActivity weatherData) activities.

End ActivityRankingService.

Import ActivityRankingService.

(** ** Calls

    A call of a JavaScript function completes normally with a value or
    abruptly with a thrown error. *)

Module Call.

Inductive completion (A : Type) : Type :=
| Normal (value : A)
| Throw (error : string).
Arguments Normal {A} value.
Arguments Throw {A} error.

(** [calculateActivityRankings(weatherData)] on an array of weather records:
    the body has no [throw] statement and every operation in it is defined
    on such an array, so the call completes normally. *)
Definition calculateActivityRankings (weatherData : list DailyWeather.t)
    : completion (list ActivityRanking.t) :=
  Normal (ActivityRankingService.calculateActivityRankings weatherData).

End Call.

(** ** The rules as the specification words them *)

Module Spec.

Import DailyWeather.

(** Clamp to [0,100]. *)
Definition clamp (x : number) : number := Math.max 0 (Math.min 100 x).

(** Skiing: baseline 0, one contribution per rule, then the clamp. *)
Definition skiingSnow (weather : DailyWeather.t) : number :=
  if snowfall weather >? 0 then Math.min 50 (snowfall weather * 5) else 0.
Definition skiingTemp (weather : DailyWeather.t) : number :=
  if maxTemp weather <? 2 then 30 else if maxTemp weather <? 7 then 15 else 0.
Definition skiingWind (weather : DailyWeather.t) : number :=
  if windSpeed weather >? 40 then 15 else 0.
Definition skiingRain (weather : DailyWeather.t) : number :=
  if precipitation weather >? 5 then 10 else 0.
Definition skiing (weather : DailyWeather.t) : number :=
  clamp (0 + skiingSnow weather + skiingTemp weather
         - skiingWind weather - skiingRain weather).

(** Surfing with the wind left out: baseline 50, plus 20 when
    [maxTemp > 18], minus 15 when [precipitation > 8], then the clamp. *)
Definition surfingTemp (weather : DailyWeather.t) : number :=
  if maxTemp weather >? 18 then 20 else 0.
Definition surfingRain (weather : DailyWeather.t) : number :=
  if precipitation weather >? 8 then 15 else 0.
Definition surfingCalm (weather : DailyWeather.t) : number :=
  clamp (50 + surfingTemp weather - surfingRain weather).

(** The condition classifier on a finite score. *)
Definition classify (score : Q) : string :=
  if Qle_bool 75 score then "Great"
  else if Qle_bool 60 score then "Good"
  else if Qle_bool 40 score then "OK"
  else "Poor".

(** The mean of a non-empty sequence of scores. *)
Definition total (scores : list Q) : Q := fold_right Qplus 0%Q scores.
Definition mean (scores : list Q) : Q :=
  (total scores / inject_Z (Z.of_nat (List.length scores)))%Q.

(** [z] is [x] rounded to the nearest integer, a tie going up. *)
Definition roundsTo (x : Q) (z : Z) : Prop :=
  (inject_Z z - (1 # 2) <= x /\ x < inject_Z z + (1 # 2))%Q.

(** The values of the daily scores a ranking stores. *)
Definition scoreValues (ranking : ActivityRanking.t) : list Q :=
  map (fun day => valueOf (ActivityDayScore.score day))
      (ActivityRanking.dailyScores ranking).


(** The fixed enumeration of the activities. *)
Definition enumeration : list string :=
  ["Skiing"; "Surfing"; "Outdoor Sightseeing"; "Indoor Sightseeing"].

End Spec.

(** ** The service in binary64

    The same functions over IEEE 754 binary64 numbers, with the rounding of
    every arithmetic operation, as the specification of floating-point
    arithmetic of the standard library defines it. *)

Module Binary64.

Definition number : Type := spec_float.

Definition prec : Z := 53.
Definition emax : Z := 1024.

(** The number an integer literal denotes. *)
Definition of_Z (z : Z) : number := binary_normalize prec emax z 0 false.

Definition add (x y : number) : number := SFadd prec emax x y.
Definition sub (x y : number) : number := SFsub prec emax x y.
Definition mul (x y : number) : number := SFmul prec emax x y.
Definition div (x y : number) : number := SFdiv prec emax x y.


Definition lt (x y : number) : bool := SFltb x y.
Definition gt (x y : number) : bool := SFltb y x.
Definition le (x y : number) : bool := SFleb x y.
Definition ge (x y : number) : bool := SFleb y x.
Definition strict_eq (x y : number) : bool := SFeqb x y.

Declare Scope b64_scope.
Delimit Scope b64_scope with b64.

Definition literal_to_Z (x : number) : option Z := None.
Number Notation spec_float of_Z literal_to_Z : b64_scope.

Infix "+" := add : b64_scope.
Infix "-" := sub : b64_scope.
Infix "*" := mul : b64_scope.
Infix "/" := div : b64_scope.
Infix "<?" := lt : b64_scope.
Infix ">?" := gt : b64_scope.
Infix "<=?" := le : b64_scope.
Infix ">=?" := ge : b64_scope.
Infix "===" := strict_eq (at level 70, no associativity) : b64_scope.

(** The exact value of a finite number. *)
Definition toQ (x : number) : Q :=
  match x with
  | S754_finite s m e => inject_Z (cond_Zopp s (Zpos m)) * Qpower 2 e
  | _ => 0
  end.

Module Math.

(** [Math.min] and [Math.max]: [NaN] if either argument is, and -0 below
    +0. *)
Definition min (x y : number) : number :=
  match x, y with
  | S754_nan, _ | _, S754_nan => S754_nan
  | _, _ =>
      if lt y x then y
      else if lt x y then x
      else match x with S754_zero false => y | _ => x end
  end.

Definition max (x y : number) : number :=
  match x, y with
  | S754_nan, _ | _, S754_nan => S754_nan
  | _, _ =>
      if lt x y then y
      else if lt y x then x
      else match x with S754_zero true => y | _ => x end
  end.

(** [Math.round]: the nearest integer, a tie going towards +Infinity; a
    number with no fractional bits is returned as it is, and a zero result
    keeps the sign of the argument. *)
Definition round (x : number) : number :=
  match x with
  | S754_finite s m e =>
      if (0 <=? e)%Z then x
      else
        let z := Qfloor (toQ x + (1 # 2)) in
        if (z =? 0)%Z then S754_zero s else of_Z z
  | other => other
  end.

End Math.

Definition length {A : Type} (xs : list A) : number :=
  of_Z (Z.of_nat (List.length xs)).

Module DailyWeather.
Record t : Type := make {
  date : string;
  maxTemp : number;
  minTemp : number;
  precipitation : number;
  windSpeed : number;
  snowfall : number;
  cloudCover : number
}.
End DailyWeather.

Module ActivityDayScore.
Record t : Type := make {
  date : string;
  score : number;
  conditions : string
}.
End ActivityDayScore.

Module ActivityRanking.
Record t : Type := make {
  activity : string;
  averageScore : number;
  dailyScores : list ActivityDayScore.t;
  recommendation : string
}.
End ActivityRanking.

Module Activity.
Record t : Type := make {
  name : string;
  scoreFn : DailyWeather.t -> number
}.
End Activity.

Import DailyWeather.
Local Open Scope b64_scope.

Definition clamp (score : number) : number :=
  Math.max 0 (Math.min 100 score).

Definition scoreSkiing (weather : DailyWeather.t) : number :=
  let score := 0 in
  let score :=
    if snowfall weather >? 0
    then score + Math.min 50 (snowfall weather * 5)
    else score in
  let score :=
    if maxTemp weather <? 2 then score + 30
    else if maxTemp weather <? 7 then score + 15
    else score in
  let score := if windSpeed weather >? 40 then score - 15 else score in
  let score := if precipitation weather >? 5 then score - 10 else score in
  clamp score.

Definition scoreSurfing (weather : DailyWeather.t) : number :=
  let score := 50 in
  let score :=
    if (windSpeed weather >? 10) && (windSpeed weather <? 35) then score + 25
    else if windSpeed weather >? 40 then score - 20
    else score in
  let score := if maxTemp weather >? 18 then score + 20 else score in
  let score := if precipitation weather >? 8 then score - 15 else score in
  clamp score.

Definition scoreOutdoorSightseeing (weather : DailyWeather.t) : number :=
  let score := 60 in
  let score :=
    if cloudCover weather <? 40 then score + 20
    else if cloudCover weather >? 80 then score - 10
    else score in
  let score :=
    if (maxTemp weather >=? 15) && (maxTemp weather <=? 28) then score + 20
    else if (maxTemp weather <? 5) || (maxTemp weather >? 35) then score - 20
    else score in
  let score :=
    if precipitation weather >? 0
    then score - precipitation weather * 2
    else score in
  clamp score.

Definition scoreIndoorSightseeing (weather : DailyWeather.t) : number :=
  let score := 70 in
  let score := if precipitation weather >? 5 then score + 15 else score in
  let score :=
    if (maxTemp weather <? 5) || (maxTemp weather >? 30) then score + 15
    else score in
  let score :=
    if (precipitation weather === 0) && (cloudCover weather <? 50)
       && (maxTemp weather >? 15) && (maxTemp weather <? 25)
    then score - 20
    else score in
  clamp score.

Definition getConditionDescription (score : number) : string :=
  if score >=? 75 then "Great"
  else if score >=? 60 then "Good"
  else if score >=? 40 then "OK"
  else "Poor".

Definition getRecommendation (activity : string) (avgScore : number) : string :=
  (if avgScore >=? 70 then "Perfect week for " ++ activity ++ "!"
   else if avgScore >=? 50 then "Decent conditions for " ++ activity ++ " this week."
   else "Not the best week for " ++ activity ++ ".")%string.

Definition activities : list Activity.t :=
  [ Activity.make "Skiing" scoreSkiing;
    Activity.make "Surfing" scoreSurfing;
    Activity.make "Outdoor Sightseeing" scoreOutdoorSightseeing;
    Activity.make "Indoor Sightseeing" scoreIndoorSightseeing ].

Definition rankActivity (weatherData : list DailyWeather.t)
    (activity : Activity.t) : ActivityRanking.t :=
  let dailyScores :=
    map (fun day =>
           ActivityDayScore.make
             (date day)
             (Activity.scoreFn activity day)
             (getConditionDescription (Activity.scoreFn activity day)))
        weatherData in
  let totalScore :=
    fold_left (fun sum day => sum + ActivityDayScore.score day) dailyScores 0 in
  let averageScore := Math.round (totalScore / length dailyScores) in
  ActivityRanking.make
    (Activity.name activity)
    averageScore
    dailyScores
    (getRecommendation (Activity.name activity) averageScore).

Definition calculateActivityRankings (weatherData : list DailyWeather.t)
    : list ActivityRanking.t :=
  map (rankActivity weatherData) activities.

(** The exact values of the daily scores a ranking stores. *)
Definition scoreValues (ranking : ActivityRanking.t) : list Q :=
  map (fun day => toQ (ActivityDayScore.score day))
      (ActivityRanking.dailyScores ranking).


End Binary64.

(** ** Sample days *)

Module Sample.

Import DailyWeather.

(** The skiing scenario of the specification. *)
Definition snowy : DailyWeather.t :=
  {| date := "2024-01-15"; maxTemp := 1; minTemp := -5; precipitation := 0;
     windSpeed := 10; snowfall := 4; cloudCover := 20 |}.

(** A mild day with 0.3 mm of rain. *)
Definition drizzle : DailyWeather.t :=
  {| date := "2024-05-02"; maxTemp := 20; minTemp := 10;
     precipitation := Finite 0.3;
     windSpeed := 5; snowfall := 0; cloudCover := 20 |}.

(** A surfing day with the wind at 37 km/h. *)
Definition breezy : DailyWeather.t :=
  {| date := "2024-07-09"; maxTemp := 25; minTemp := 15; precipitation := 0;
     windSpeed := 37; snowfall := 0; cloudCover := 10 |}.

(** The fair day of the specification's second scenario. *)
Definition fair : DailyWeather.t :=
  {| date := "2024-07-10"; maxTemp := 25; minTemp := 15; precipitation := 0;
     windSpeed := 20; snowfall := 0; cloudCover := 10 |}.

(** An adversarial record with [snowfall = 1000]. *)
Definition blizzard : DailyWeather.t :=
  {| date := "2024-02-01"; maxTemp := -30; minTemp := -40; precipitation := 0;
     windSpeed := 120; snowfall := 1000; cloudCover := 100 |}.

End Sample.

(** * The code around the scoring engine

    The weather service that feeds the engine, the resolver that calls both,
    and the components that present the rankings. *)

From Stdlib Require Import Sorted Permutation.

(** ** Values of a JSON response *)

Module Value.

(** A field of a decoded JSON response, or what indexing past the end of an
    array gives. *)
Inductive value : Type :=
| Undefined
| Null
| Num (n : number).

(** [ToBoolean]: [undefined], [null], [0] and [NaN] are falsy. *)
Definition truthy (v : value) : bool :=
  match v with
  | Undefined | Null => false
  | Num NaN => false
  | Num (Finite q) => negb (Qeq_bool q 0)
  | Num _ => true
  end.

(** [v || d]. *)
Definition or (v d : value) : value := if truthy v then v else d.

(** [ToNumber], the coercion the relational and arithmetic operators apply
    to an operand. *)
Definition ToNumber (v : value) : number :=
  match v with
  | Undefined => NaN
  | Null => 0
  | Num n => n
  end.

(** [xs[index]]: [undefined] past the end. *)
Definition at_index (xs : list value) (index : nat) : value :=
  nth index xs Undefined.

End Value.

(** ** Arrays and strings *)

Module JSArray.

(** [xs.map((x, index) => f(x, index))]. *)
Fixpoint map_from {A B : Type} (f : A -> nat -> B) (index : nat) (xs : list A)
    : list B :=
  match xs with
  | [] => []
  | x :: rest => f x index :: map_from f (S index) rest
  end.

Definition mapi {A B : Type} (f : A -> nat -> B) (xs : list A) : list B :=
  map_from f 0 xs.

(** [xs.sort(comparefn)] for a consistent comparator: the sort is stable, an
    element moves behind another one only when the comparator is positive
    on the pair. *)
Fixpoint insert {A : Type} (comparefn : A -> A -> number) (x : A)
    (sorted : list A) : list A :=
  match sorted with
  | [] => [x]
  | y :: rest =>
      if comparefn x y >? 0 then y :: insert comparefn x rest
      else x :: sorted
  end.

Fixpoint sort {A : Type} (comparefn : A -> A -> number) (xs : list A)
    : list A :=
  match xs with
  | [] => []
  | x :: rest => insert comparefn x (sort comparefn rest)
  end.

(** [Math.max(...xs)] and [Math.min(...xs)]. *)
Definition maximum (xs : list number) : number :=
  fold_left Math.max xs NegInfinity.

Definition minimum (xs : list number) : number :=
  fold_left Math.min xs Infinity.

End JSArray.

Module JSString.

(** [s.includes(sub)]. *)
Fixpoint includes (s sub : string) : bool :=
  String.prefix sub s
  || match s with
     | EmptyString => false
     | String _ rest => includes rest sub
     end.

(** The double quote character as a string. *)
Definition quote : string := String (Ascii.ascii_of_nat 34) EmptyString.

End JSString.

(** ** The weather service *)

(** The outcome of an awaited [axios.get] as the [try] block around it
    meets it: a decoded body the block reads through; a body on which one of
    the property reads of the block throws a [TypeError] ([data] or an array
    missing, a [null] entry), with the message of that error; or a
    rejection, with the message of the error the request rejects with. *)
Inductive settled (A : Type) : Type :=
| Fulfilled (data : A)
| Unreadable (typeError : string)
| Rejected (message : string).
Arguments Fulfilled {A} data.
Arguments Unreadable {A} typeError.
Arguments Rejected {A} message.

(** One entry of [response.data.results] of the geocoding API. *)
Module GeoResult.
Record t : Type := make {
  latitude : number;
  longitude : number;
  name : string;
  country : string
}.
End GeoResult.

Module Coordinates.
Record t : Type := make {
  latitude : number;
  longitude : number;
  displayName : string
}.
End Coordinates.

(** [response.data.daily] of the forecast API: one array per variable. *)
Module Daily.
Record t : Type := make {
  time : list string;
  temperature_2m_max : list Value.value;
  temperature_2m_min : list Value.value;
  precipitation_sum : list Value.value;
  windspeed_10m_max : list Value.value;
  snowfall_sum : list Value.value;
  cloudcover_mean : list Value.value
}.
End Daily.

(** A day as [getWeatherForecast] builds it, its fields as the API gave
    them. *)
Module ForecastDay.
Record t : Type := make {
  date : string;
  maxTemp : Value.value;
  minTemp : Value.value;
  precipitation : Value.value;
  windSpeed : Value.value;
  snowfall : Value.value;
  cloudCover : Value.value
}.
End ForecastDay.

Module WeatherService.

Import Call Value.

(** [geocodeLocation] (lines 201-239): [results]
    is [response.data.results], absent when the API found nothing.  The
    [try] block throws on an empty answer; the [catch] block rethrows an
    error whose message includes 'not found' and wraps any other, be it the
    rejection of the request or a [TypeError] of the block. *)
Definition geocodeLocation (location : string)
    (response : settled (option (list GeoResult.t)))
    : completion Coordinates.t :=
  let attempt :=
    match response with
    | Rejected message => Throw message
    | Unreadable typeError => Throw typeError
    | Fulfilled results =>
        match results with
        | None | Some [] =>
            Throw ("Location " ++ JSString.quote ++ location
                   ++ JSString.quote ++ " not found")
        | Some (result :: _) =>
            Normal
              (Coordinates.make
                 (GeoResult.latitude result)
                 (GeoResult.longitude result)
                 (GeoResult.name result ++ ", " ++ GeoResult.country result))
        end
    end in
  match attempt with
  | Normal coordinates => Normal coordinates
  | Throw message =>
      if JSString.includes message "not found" then Throw message
      else Throw ("Geocoding failed: " ++ message)
  end.

(** The callback of [daily.time.map] (lines 288-296). *)
Definition forecastDay (daily : Daily.t) (date : string) (index : nat)
    : ForecastDay.t :=
  ForecastDay.make
    date
    (at_index (Daily.temperature_2m_max daily) index)
    (at_index (Daily.temperature_2m_min daily) index)
    (or (at_index (Daily.precipitation_sum daily) index) (Num 0))
    (at_index (Daily.windspeed_10m_max daily) index)
    (or (at_index (Daily.snowfall_sum daily) index) (Num 0))
    (at_index (Daily.cloudcover_mean daily) index).

(** [getWeatherForecast] (lines 257-300) on the outcome of the request: the
    [catch] block wraps the rejection of the request and any [TypeError] of
    the [try] block alike. *)
Definition getWeatherForecast (response : settled Daily.t)
    : completion (list ForecastDay.t) :=
  match response with
  | Rejected message => Throw ("Weather forecast failed: " ++ message)
  | Unreadable typeError => Throw ("Weather forecast failed: " ++ typeError)
  | Fulfilled daily => Normal (JSArray.mapi (forecastDay daily) (Daily.time daily))
  end.

End WeatherService.

(** ** The resolver *)

Module ActivityForecast.
Record t : Type := make {
  location : string;
  latitude : number;
  longitude : number;
  dailyWeather : list ForecastDay.t;
  rankings : list ActivityRanking.t
}.
End ActivityForecast.

Module Schema.

Import Call Value.

(** A forecast day as the scoring functions read it.  They compare
    [maxTemp], [windSpeed] and [cloudCover] with numbers, which applies
    [ToNumber] to the field; [precipitation] and [snowfall] are numbers
    already, [getWeatherForecast] having defaulted them. *)
Definition weatherOf (day : ForecastDay.t) : DailyWeather.t :=
  DailyWeather.make
    (ForecastDay.date day)
    (ToNumber (ForecastDay.maxTemp day))
    (ToNumber (ForecastDay.minTemp day))
    (ToNumber (ForecastDay.precipitation day))
    (ToNumber (ForecastDay.windSpeed day))
    (ToNumber (ForecastDay.snowfall day))
    (ToNumber (ForecastDay.cloudCover day)).

(** The [getActivityForecast] resolver (schema, lines 98-129), the two APIs
    being given as the outcome they settle with for a request. *)
Definition getActivityForecast
    (geocodingApi : string -> settled (option (list GeoResult.t)))
    (forecastApi : number -> number -> settled Daily.t)
    (location : string) : completion ActivityForecast.t :=
  let attempt :=
    match WeatherService.geocodeLocation location (geocodingApi location) with
    | Throw message => Throw message
    | Normal coordinates =>
        let latitude := Coordinates.latitude coordinates in
        let longitude := Coordinates.longitude coordinates in
        match WeatherService.getWeatherForecast (forecastApi latitude longitude) with
        | Throw message => Throw message
        | Normal weatherData =>
            let rankings :=
              ActivityRankingService.calculateActivityRankings
                (map weatherOf weatherData) in
            Normal
              (ActivityForecast.make
                 (Coordinates.displayName coordinates)
                 latitude
                 longitude
                 weatherData
                 rankings)
        end
    end in
  match attempt with
  | Normal forecast => Normal forecast
  | Throw message =>
      Throw ("Failed to fetch forecast for " ++ location ++ ": " ++ message)
  end.

End Schema.

(** ** The components *)

Module ActivityCard.

(** [getScoreColor] (ActivityCard, lines 50-56). *)
Definition getScoreColor (score : number) : string :=
  if score >=? 80 then "#10b981"
  else if score >=? 60 then "#3b82f6"
  else if score >=? 40 then "#f59e0b"
  else if score >=? 20 then "#ef4444"
  else "#6b7280".

End ActivityCard.

Module ActivityDashboard.

(** The comparator of [forecast.rankings.sort] (ActivityDashboard, line 81). *)
Definition byAverageScore (a b : ActivityRanking.t) : number :=
  ActivityRanking.averageScore b - ActivityRanking.averageScore a.

(** The rankings in the order the grid shows them. *)
Definition displayed (rankings : list ActivityRanking.t)
    : list ActivityRanking.t :=
  JSArray.sort byAverageScore rankings.

End ActivityDashboard.

Module WeatherSummary.

(** The statistics of [WeatherSummary] (lines 44-77) that are numbers; the
    averages and totals, which the component formats with [toFixed], are
    left out. *)
Record Stats : Type := make {
  highestTemp : number;
  lowestTemp : number;
  rainyDays : number;
  snowDays : number
}.

(** [None] is the [null] of the guard clause. *)
Definition statistics (weatherData : list DailyWeather.t) : option Stats :=
  match weatherData with
  | [] => None
  | _ =>
      Some
        (make
           (JSArray.maximum (map DailyWeather.maxTemp weatherData))
           (JSArray.minimum (map DailyWeather.minTemp weatherData))
           (JS.length (filter (fun d => DailyWeather.precipitation d >? 1) weatherData))
           (JS.length (filter (fun d => DailyWeather.snowfall d >? 0) weatherData)))
  end.

End WeatherSummary.

(** ** Sample responses *)

Module SampleResponse.

Import Value.

(** Two days; the rain of the first is [null], the snowfall array is short
    and the second maximum temperature is [null]. *)
Definition daily : Daily.t :=
  {| Daily.time := ["2024-03-01"; "2024-03-02"];
     Daily.temperature_2m_max := [Num 4; Null];
     Daily.temperature_2m_min := [Num (-3); Num 1];
     Daily.precipitation_sum := [Null; Num (Finite 1.2)];
     Daily.windspeed_10m_max := [Num 12; Num 45];
     Daily.snowfall_sum := [Num 6];
     Daily.cloudcover_mean := [Num 90; Num 30] |}.

Definition paris : GeoResult.t :=
  GeoResult.make (Finite 48.85) (Finite 2.35) "Paris" "France".

Definition geocodingApi (location : string)
    : settled (option (list GeoResult.t)) :=
  if String.eqb location "Paris" then Fulfilled (Some [paris])
  else Fulfilled None.

Definition forecastApi (latitude longitude : number) : settled Daily.t :=
  Fulfilled daily.

Definition offline (latitude longitude : number) : settled Daily.t :=
  Rejected "Network Error".

End SampleResponse.

(** ** A sample week *)

Module SampleWeek.

Import DailyWeather.

(** A mild clear day with half a millimetre of rain: outdoor sightseeing
    scores [60 + 20 + 20 - 0.5 * 2 = 99]. *)
Definition shower : DailyWeather.t :=
  {| date := "2024-06-01"; maxTemp := 20; minTemp := 12;
     precipitation := Finite 0.5;
     windSpeed := 8; snowfall := 0; cloudCover := 20 |}.

Definition showers : list DailyWeather.t := repeat shower 7.

End SampleWeek.

(** * Properties *)

(** ** Numbers *)

Section NumberFacts.

Lemma lt_Finite (a b : Q) : (Finite a <? Finite b) = true <-> (a < b)%Q.
Proof.
  unfold lt. rewrite Qlt_alt. destruct (a ?= b)%Q; intuition congruence.
Qed.

Lemma lt_Finite_false (a b : Q) : (Finite a <? Finite b) = false <-> (b <= a)%Q.
Proof.
  rewrite <- not_true_iff_false, lt_Finite. split.
  - apply Qnot_lt_le.
  - intros H H'. exact (Qlt_not_le _ _ H' H).
Qed.

Lemma strict_eq_Finite (a b : Q) : (Finite a === Finite b) = true <-> (a == b)%Q.
Proof. apply Qeq_bool_iff. Qed.

Lemma le_Finite (a b : Q) : (Finite a <=? Finite b) = true <-> (a <= b)%Q.
Proof.
  unfold le. rewrite orb_true_iff, lt_Finite, strict_eq_Finite. split.
  - intros [H | H]; [apply Qlt_le_weak, H | rewrite H; apply Qle_refl].
  - intros H. destruct (Qle_lt_or_eq _ _ H); auto.
Qed.

Lemma le_Finite_false (a b : Q) : (Finite a <=? Finite b) = false <-> (b < a)%Q.
Proof.
  rewrite <- not_true_iff_false, le_Finite. split.
  - apply Qnot_le_lt.
  - intros H H'. exact (Qlt_not_le _ _ H H').
Qed.

(** Every comparison with [NaN] is false. *)
Lemma lt_NaN_l (x : number) : (NaN <? x) = false.
Proof. reflexivity. Qed.

Lemma lt_NaN_r (x : number) : (x <? NaN) = false.
Proof. destruct x; reflexivity. Qed.

Lemma le_NaN_l (x : number) : (NaN <=? x) = false.
Proof. reflexivity. Qed.

Lemma le_NaN_r (x : number) : (x <=? NaN) = false.
Proof. destruct x; reflexivity. Qed.

Lemma min_Finite (a b : Q) :
  exists c, Math.min (Finite a) (Finite b) = Finite c /\ c == Qmin a b.
Proof.
  unfold Math.min. destruct (Finite b <? Finite a) eqn:E.
  - apply lt_Finite in E. exists b. split; [reflexivity|].
    symmetry. apply Q.min_r. now apply Qlt_le_weak.
  - apply lt_Finite_false in E. exists a. split; [reflexivity|].
    symmetry. now apply Q.min_l.
Qed.

Lemma max_Finite (a b : Q) :
  exists c, Math.max (Finite a) (Finite b) = Finite c /\ c == Qmax a b.
Proof.
  unfold Math.max. destruct (Finite a <? Finite b) eqn:E.
  - apply lt_Finite in E. exists b. split; [reflexivity|].
    symmetry. apply Q.max_r. now apply Qlt_le_weak.
  - apply lt_Finite_false in E. exists a. split; [reflexivity|].
    symmetry. now apply Q.max_l.
Qed.

End NumberFacts.

(** ** The clamp *)

Section ClampFacts.

(** The three regimes of [Math.max(0, Math.min(100, score))] on a finite
    score. *)
Lemma clamp_cases (q : Q) :
  (q <= 0 /\ clamp (Finite q) = 0)%Q \/
  (0 < q /\ q < 100 /\ clamp (Finite q) = Finite q)%Q \/
  (100 <= q /\ clamp (Finite q) = 100)%Q.
Proof.
  unfold clamp, Math.min.
  destruct (Finite q <? Finite 100) eqn:Hhi.
  - apply lt_Finite in Hhi. unfold Math.max.
    destruct (Finite 0 <? Finite q) eqn:Hlo.
    + apply lt_Finite in Hlo. right; left. auto.
    + apply lt_Finite_false in Hlo. left. auto.
  - apply lt_Finite_false in Hhi. right; right. split; [exact Hhi | reflexivity].
Qed.

Lemma clamp_NegInfinity : clamp NegInfinity = 0.
Proof. reflexivity. Qed.

Lemma clamp_Infinity : clamp Infinity = 100.
Proof. reflexivity. Qed.

Lemma clamp_NaN : clamp NaN = NaN.
Proof. reflexivity. Qed.

(** The clamp sends every number but [NaN] into [0,100]. *)
Lemma clamp_within (x : number) : x <> NaN -> within 0 100 (clamp x).
Proof.
  destruct x as [| | q |]; intros Hx.
  - congruence.
  - rewrite clamp_NegInfinity. simpl. lra.
  - destruct (clamp_cases q) as [[H ->] | [(H1 & H2 & ->) | [H ->]]];
      simpl; lra.
  - rewrite clamp_Infinity. simpl. lra.
Qed.

(** On a finite score already above [lo >= 0] the clamp keeps it there. *)
Lemma clamp_within_from (lo q : Q) :
  (0 <= lo)%Q -> (lo <= q)%Q -> (lo <= 100)%Q ->
  within lo 100 (clamp (Finite q)).
Proof.
  intros H0 Hlo H100.
  destruct (clamp_cases q) as [[H ->] | [(H1 & H2 & ->) | [H ->]]];
    simpl; lra.
Qed.

Lemma clamp_same (a b : Q) :
  (a == b)%Q -> same (clamp (Finite a)) (clamp (Finite b)).
Proof.
  intros Hab.
  destruct (clamp_cases a) as [[Ha ->] | [(Ha1 & Ha2 & ->) | [Ha ->]]];
    destruct (clamp_cases b) as [[Hb ->] | [(Hb1 & Hb2 & ->) | [Hb ->]]];
    simpl; lra.
Qed.

End ClampFacts.

(** ** Scores stay in range *)

(** Split on every test of the goal. *)
Ltac branch :=
  repeat match goal with
         | |- context [if ?b then _ else _] => destruct b eqn:?
         end.

(** Reduce the arithmetic of the embedding, leaving the rationals alone. *)
Ltac js_simpl :=
  cbn [add sub neg mul signed] in *.

Section Ranges.

Variable weather : DailyWeather.t.

(** The snow bonus [Math.min(50, snowfall * 5)] is finite whenever it is
    added. *)
Lemma snow_bonus_finite :
  (DailyWeather.snowfall weather >? 0) = true ->
  exists q, Math.min 50 (DailyWeather.snowfall weather * 5) = Finite q
            /\ (0 < q <= 50)%Q.
Proof.
  destruct (DailyWeather.snowfall weather) as [| | s |]; intros H;
    try discriminate H.
  - apply lt_Finite in H. change (inject_Z 0) with 0%Q in H.
    change (Finite s * 5) with (Finite (s * 5)).
    unfold Math.min.
    destruct (Finite (s * 5) <? Finite 50) eqn:E.
    + apply lt_Finite in E. exists (s * 5)%Q. split; [reflexivity | lra].
    + exists 50%Q. split; [reflexivity | lra].
  - exists 50%Q. split; [reflexivity | lra].
Qed.

Lemma scoreSkiing_within : within 0 100 (scoreSkiing weather).
Proof.
  unfold scoreSkiing.
  destruct (DailyWeather.snowfall weather >? 0) eqn:Hsnow.
  - destruct (snow_bonus_finite Hsnow) as (q & -> & _).
    apply clamp_within. branch; js_simpl; discriminate.
  - apply clamp_within. branch; js_simpl; discriminate.
Qed.

Lemma scoreSurfing_within : within 0 100 (scoreSurfing weather).
Proof.
  unfold scoreSurfing, surfingRest, surfingWind.
  apply clamp_within. branch; js_simpl; discriminate.
Qed.

(** The rain penalty leaves a finite score finite or sends it to
    [-Infinity]; it never produces [NaN]. *)
Lemma rain_penalty_defined (q : Q) :
  (DailyWeather.precipitation weather >? 0) = true ->
  Finite q - DailyWeather.precipitation weather * 2 <> NaN.
Proof.
  destruct (DailyWeather.precipitation weather) as [| | p |]; intros H;
    try discriminate H; js_simpl; discriminate.
Qed.

Lemma scoreOutdoorSightseeing_within :
  within 0 100 (scoreOutdoorSightseeing weather).
Proof.
  unfold scoreOutdoorSightseeing.
  apply clamp_within.
  destruct (DailyWeather.precipitation weather >? 0) eqn:Hrain.
  - branch; js_simpl; apply rain_penalty_defined; exact Hrain.
  - branch; js_simpl; discriminate.
Qed.

End Ranges.

Section IndoorRange.

Variable weather : DailyWeather.t.

Lemma scoreIndoorSightseeing_within :
  within 50 100 (scoreIndoorSightseeing weather).
Proof.
  unfold scoreIndoorSightseeing.
  branch; js_simpl; apply clamp_within_from; unfold inject_Z; lra.
Qed.

End IndoorRange.

Lemma within_weaken (lo lo' hi hi' : Q) (x : number) :
  (lo' <= lo)%Q -> (hi <= hi')%Q -> within lo hi x -> within lo' hi' x.
Proof.
  destruct x; simpl; try tauto. intros; lra.
Qed.

Lemma within_Finite (lo hi : Q) (x : number) :
  within lo hi x -> exists q, x = Finite q /\ (lo <= q <= hi)%Q.
Proof.
  destruct x as [| | q |]; simpl; try tauto. intros H. now exists q.
Qed.

(** C3: each of the four scoring functions returns a finite value in
    [0, 100] on every weather record, whatever numbers its fields hold
    (extremes such as [snowfall = 1000], the infinities and [NaN]
    included). *)
Theorem scores_within_0_100 (weather : DailyWeather.t) :
  within 0 100 (scoreSkiing weather) /\
  within 0 100 (scoreSurfing weather) /\
  within 0 100 (scoreOutdoorSightseeing weather) /\
  within 0 100 (scoreIndoorSightseeing weather).
Proof.
  repeat split.
  - apply scoreSkiing_within.
  - apply scoreSurfing_within.
  - apply scoreOutdoorSightseeing_within.
  - apply within_weaken with (lo := 50%Q) (hi := 100%Q); try lra.
    apply scoreIndoorSightseeing_within.
Qed.

Example scores_blizzard :
  scoreSkiing Sample.blizzard = 65 /\
  scoreSurfing Sample.blizzard = 30 /\
  scoreOutdoorSightseeing Sample.blizzard = 30 /\
  scoreIndoorSightseeing Sample.blizzard = 85.
Proof. repeat split; reflexivity. Qed.

(** ** Skiing *)

Lemma same_refl (x : number) : same x x.
Proof. destruct x; simpl; auto. reflexivity. Qed.

Lemma same_sym (x y : number) : same x y -> same y x.
Proof. destruct x, y; simpl; auto. intros H. now symmetry. Qed.

Lemma same_trans (x y z : number) : same x y -> same y z -> same x z.
Proof.
  destruct x, y, z; simpl; auto; try tauto. intros H1 H2. now rewrite H1.
Qed.

(** C4: [scoreSkiing] is the rule of the specification: baseline 0, plus
    [min(50, snowfall * 5)] when [snowfall > 0], plus 30 when [maxTemp < 2]
    else plus 15 when [maxTemp < 7], minus 15 when [windSpeed > 40], minus 10
    when [precipitation > 5], clamped to [0,100]; and the day
    [{maxTemp:1, minTemp:-5, precipitation:0, windSpeed:10, snowfall:4,
    cloudCover:20}] scores exactly 50. *)
Theorem scoreSkiing_rule :
  (forall weather : DailyWeather.t,
      same (scoreSkiing weather) (Spec.skiing weather)) /\
  scoreSkiing Sample.snowy = 50.
Proof.
  split; [| reflexivity].
  intros weather.
  unfold scoreSkiing, Spec.skiing, Spec.skiingSnow, Spec.skiingTemp,
    Spec.skiingWind, Spec.skiingRain.
  change Spec.clamp with clamp.
  destruct (DailyWeather.snowfall weather >? 0) eqn:Hsnow.
  - destruct (snow_bonus_finite weather Hsnow) as (q & -> & _).
    branch; js_simpl; apply clamp_same; unfold inject_Z; lra.
  - branch; js_simpl; apply clamp_same; unfold inject_Z; lra.
Qed.

(** ** Surfing *)

(** Turn the tests on finite numbers into facts on rationals. *)
Ltac to_Q :=
  unfold gt, ge in *;
  repeat match goal with
         | H : (_ && _) = true |- _ => apply andb_true_iff in H; destruct H
         | H : (Finite _ <? Finite _) = true |- _ => apply lt_Finite in H
         | H : (Finite _ <? Finite _) = false |- _ => apply lt_Finite_false in H
         | H : (Finite _ <=? Finite _) = true |- _ => apply le_Finite in H
         | H : (Finite _ <=? Finite _) = false |- _ => apply le_Finite_false in H
         end;
  unfold inject_Z in *.

(** C5: in [scoreSurfing] the wind adjustment is +25 exactly when
    [10 < windSpeed < 35] and -20 exactly when [windSpeed > 40]: the score
    is the score without wind plus 25 in the first case and only then, and
    minus 20 in the second case and only then; for every [windSpeed] in the
    closed interval [35, 40] neither applies and the score is the score
    without wind, the wind contributing 0.  The same holds of the wind
    statement on any score it is run on. *)
Theorem surfing_wind_rule (weather : DailyWeather.t) (q : Q) :
  let wind := DailyWeather.windSpeed weather in
  (same (scoreSurfing weather) (Spec.surfingCalm weather + 25)
   <-> (wind >? 10) && (wind <? 35) = true) /\
  (same (scoreSurfing weather) (Spec.surfingCalm weather - 20)
   <-> (wind >? 40) = true) /\
  (same (scoreSurfing weather) (Spec.surfingCalm weather)
   <-> (wind >? 10) && (wind <? 35) = false /\ (wind >? 40) = false) /\
  ((wind >=? 35) && (wind <=? 40) = true ->
   same (scoreSurfing weather) (Spec.surfingCalm weather)) /\
  (same (surfingWind weather (Finite q)) (Finite q + 25)
   <-> (wind >? 10) && (wind <? 35) = true) /\
  (same (surfingWind weather (Finite q)) (Finite q - 20)
   <-> (wind >? 40) = true) /\
  ((wind >=? 35) && (wind <=? 40) = true ->
   surfingWind weather (Finite q) = Finite q /\
   scoreSurfing weather = surfingRest weather 50).
Proof.
  cbn zeta.
  assert (Hwhole :
    let wind := DailyWeather.windSpeed weather in
    (same (scoreSurfing weather) (Spec.surfingCalm weather + 25)
     <-> (wind >? 10) && (wind <? 35) = true) /\
    (same (scoreSurfing weather) (Spec.surfingCalm weather - 20)
     <-> (wind >? 40) = true) /\
    (same (scoreSurfing weather) (Spec.surfingCalm weather)
     <-> (wind >? 10) && (wind <? 35) = false /\ (wind >? 40) = false) /\
    ((wind >=? 35) && (wind <=? 40) = true ->
     same (scoreSurfing weather) (Spec.surfingCalm weather))).
  { unfold scoreSurfing, surfingRest, surfingWind, Spec.surfingCalm,
      Spec.surfingTemp, Spec.surfingRain. cbn zeta.
    destruct (DailyWeather.windSpeed weather) as [| | w |].
    - branch; vm_compute; intuition (discriminate || reflexivity).
    - branch; vm_compute; intuition (discriminate || reflexivity).
    - destruct (DailyWeather.maxTemp weather >? 18);
        destruct (DailyWeather.precipitation weather >? 8);
        destruct (Finite w >? 10) eqn:H10; destruct (Finite w <? 35) eqn:H35;
        destruct (Finite w >? 40) eqn:H40;
        destruct (Finite w >=? 35) eqn:G35; destruct (Finite w <=? 40) eqn:G40;
        try (exfalso; to_Q; lra);
        vm_compute; intuition (discriminate || reflexivity).
    - branch; vm_compute; intuition (discriminate || reflexivity). }
  assert (Hstep :
    let wind := DailyWeather.windSpeed weather in
    (same (surfingWind weather (Finite q)) (Finite q + 25)
     <-> (wind >? 10) && (wind <? 35) = true) /\
    (same (surfingWind weather (Finite q)) (Finite q - 20)
     <-> (wind >? 40) = true) /\
    ((wind >=? 35) && (wind <=? 40) = true ->
     surfingWind weather (Finite q) = Finite q /\
     scoreSurfing weather = surfingRest weather 50)).
  { unfold scoreSurfing, surfingWind.
    destruct (DailyWeather.windSpeed weather) as [| | w |]; cbn zeta.
    - cbn. repeat split; try discriminate; try tauto; intros H; lra.
    - cbn. repeat split; try discriminate; try tauto; intros H; lra.
    - repeat split.
      + branch; js_simpl; cbn [same]; intros; try reflexivity;
          to_Q; try discriminate; lra.
      + intros H. rewrite H. js_simpl. cbn [same]. reflexivity.
      + branch; js_simpl; cbn [same]; intros; try reflexivity;
          to_Q; try discriminate; lra.
      + intros H. rewrite H.
        destruct ((Finite w >? 10) && (Finite w <? 35)) eqn:E;
          [to_Q; lra | apply same_refl].
      + branch; try reflexivity; to_Q; lra.
      + branch; try reflexivity; to_Q; lra.
    - cbn. repeat split; try discriminate; try tauto; intros H; lra. }
  cbn zeta in Hwhole, Hstep. tauto.
Qed.

Lemma surfing_wind_rule_witness :
  same (scoreSurfing Sample.breezy) (Spec.surfingCalm Sample.breezy) /\
  surfingWind Sample.breezy 50 = 50 /\
  scoreSurfing Sample.breezy = surfingRest Sample.breezy 50.
Proof.
  pose proof (surfing_wind_rule Sample.breezy 50) as (_ & _ & _ & H & _ & _ & H').
  split; [apply H; reflexivity | apply H'; reflexivity].
Defined.

Example scoreSurfing_breezy : scoreSurfing Sample.breezy = 70.
Proof. reflexivity. Qed.

Example scores_fair :
  scoreSurfing Sample.fair = 95 /\
  scoreOutdoorSightseeing Sample.fair = 100 /\
  scoreIndoorSightseeing Sample.fair = 70.
Proof. repeat split; reflexivity. Qed.

(** ** The aggregation *)

Lemma within_valueOf (lo hi : Q) (x : number) :
  within lo hi x -> x = Finite (valueOf x) /\ (lo <= valueOf x <= hi)%Q.
Proof.
  destruct x; simpl; tauto.
Qed.

Section Rounding.

Lemma roundsTo_floor (x : Q) : Spec.roundsTo x (Qfloor (x + (1 # 2))).
Proof.
  unfold Spec.roundsTo.
  pose proof (Qfloor_le (x + (1 # 2))) as Hle.
  pose proof (Qlt_floor (x + (1 # 2))) as Hlt.
  rewrite inject_Z_plus in Hlt. change (inject_Z 1) with 1%Q in Hlt.
  split; lra.
Qed.

Lemma roundsTo_Qeq (x y : Q) (z : Z) :
  (x == y)%Q -> Spec.roundsTo x z -> Spec.roundsTo y z.
Proof.
  unfold Spec.roundsTo. intros Hxy [H1 H2]. split; lra.
Qed.

(** A value between two integers rounds to an integer between them. *)
Lemma roundsTo_between (lo hi z : Z) (x : Q) :
  Spec.roundsTo x z ->
  (inject_Z lo <= x <= inject_Z hi)%Q ->
  (lo <= z <= hi)%Z.
Proof.
  unfold Spec.roundsTo. intros [H1 H2] [Hlo Hhi].
  assert (Ha : (inject_Z lo < inject_Z (z + 1))%Q).
  { rewrite inject_Z_plus. change (inject_Z 1) with 1%Q. lra. }
  assert (Hb : (inject_Z z < inject_Z (hi + 1))%Q).
  { rewrite inject_Z_plus. change (inject_Z 1) with 1%Q. lra. }
  rewrite <- Zlt_Qlt in Ha, Hb. lia.
Qed.

(** The rounding is determined: a value rounds to one integer only. *)
Lemma roundsTo_unique (x : Q) (z z' : Z) :
  Spec.roundsTo x z -> Spec.roundsTo x z' -> z = z'.
Proof.
  unfold Spec.roundsTo. intros [H1 H2] [H1' H2'].
  assert (Ha : (inject_Z z < inject_Z (z' + 1))%Q).
  { rewrite inject_Z_plus. change (inject_Z 1) with 1%Q. lra. }
  assert (Hb : (inject_Z z' < inject_Z (z + 1))%Q).
  { rewrite inject_Z_plus. change (inject_Z 1) with 1%Q. lra. }
  rewrite <- Zlt_Qlt in Ha, Hb. lia.
Qed.

End Rounding.

Section Totals.

Lemma total_bounds (lo hi : Q) (qs : list Q) :
  Forall (fun q => lo <= q <= hi)%Q qs ->
  (inject_Z (Z.of_nat (List.length qs)) * lo <= Spec.total qs
   <= inject_Z (Z.of_nat (List.length qs)) * hi)%Q.
Proof.
  induction 1 as [| q qs Hq _ IH].
  - cbn [List.length Spec.total fold_right Z.of_nat].
    change (inject_Z 0) with 0%Q. lra.
  - cbn [List.length Spec.total fold_right].
    fold (Spec.total qs).
    rewrite Nat2Z.inj_succ. unfold Z.succ. rewrite inject_Z_plus.
    change (inject_Z 1) with 1%Q. lra.
Qed.

Lemma length_positive {A : Type} (xs : list A) :
  xs <> [] -> (0 < inject_Z (Z.of_nat (List.length xs)))%Q.
Proof.
  destruct xs as [| x xs]; [congruence |]. intros _.
  rewrite <- (Zlt_Qlt 0). simpl. lia.
Qed.

Lemma mean_bounds (lo hi : Q) (qs : list Q) :
  qs <> [] ->
  Forall (fun q => lo <= q <= hi)%Q qs ->
  (lo <= Spec.mean qs <= hi)%Q.
Proof.
  intros Hne Hall. unfold Spec.mean.
  pose proof (length_positive qs Hne) as Hn.
  pose proof (total_bounds lo hi qs Hall) as [H1 H2].
  split.
  - apply Qle_shift_div_l; [exact Hn | lra].
  - apply Qle_shift_div_r; [exact Hn | lra].
Qed.

(** The [reduce] of the source over finite daily scores. *)
Lemma totalScore_Finite (ds : list ActivityDayScore.t) :
  forall (qs : list Q) (acc : Q),
    map ActivityDayScore.score ds = map Finite qs ->
    exists t,
      fold_left (fun sum day => sum + ActivityDayScore.score day) ds (Finite acc)
      = Finite t
      /\ (t == acc + Spec.total qs)%Q.
Proof.
  induction ds as [| d ds IH]; intros qs acc Hmap.
  - destruct qs; [| discriminate]. exists acc. split; [reflexivity |].
    simpl. lra.
  - destruct qs as [| q qs]; [discriminate |].
    cbn [map] in Hmap. injection Hmap as Hd Hds.
    cbn [fold_left]. rewrite Hd. cbn [add].
    destruct (IH qs (acc + q)%Q Hds) as (t & Ht & Heq).
    exists t. split; [exact Ht |].
    cbn [Spec.total fold_right]. fold (Spec.total qs). lra.
Qed.

End Totals.

Section RankActivity.

Variable activity : Activity.t.
Variables lo hi : Q.
Hypothesis scoreFn_within :
  forall day, within lo hi (Activity.scoreFn activity day).

Variable weatherData : list DailyWeather.t.

Let ranking := rankActivity weatherData activity.

Lemma dailyScores_In (d : ActivityDayScore.t) :
  In d (ActivityRanking.dailyScores ranking) ->
  exists day,
    In day weatherData /\
    d = ActivityDayScore.make
          (DailyWeather.date day)
          (Activity.scoreFn activity day)
          (getConditionDescription (Activity.scoreFn activity day)).
Proof.
  unfold ranking, rankActivity. cbn [ActivityRanking.dailyScores].
  rewrite in_map_iff. intros (day & <- & Hin). now exists day.
Qed.

Lemma dailyScores_within :
  Forall (fun d => within lo hi (ActivityDayScore.score d))
         (ActivityRanking.dailyScores ranking).
Proof.
  apply Forall_forall. intros d Hd.
  destruct (dailyScores_In d Hd) as (day & _ & ->). apply scoreFn_within.
Qed.

Lemma dailyScores_values :
  map ActivityDayScore.score (ActivityRanking.dailyScores ranking)
  = map Finite (Spec.scoreValues ranking).
Proof.
  unfold Spec.scoreValues. rewrite map_map. apply map_ext_in.
  intros d Hd. pose proof dailyScores_within as Hall.
  rewrite Forall_forall in Hall.
  exact (proj1 (within_valueOf lo hi _ (Hall d Hd))).
Qed.

Lemma scoreValues_within :
  Forall (fun q => lo <= q <= hi)%Q (Spec.scoreValues ranking).
Proof.
  unfold Spec.scoreValues. apply Forall_map.
  eapply Forall_impl; [| exact dailyScores_within].
  intros d Hd. exact (proj2 (within_valueOf lo hi _ Hd)).
Qed.

Lemma scoreValues_length :
  List.length (Spec.scoreValues ranking) = List.length weatherData.
Proof.
  unfold Spec.scoreValues, ranking, rankActivity.
  cbn [ActivityRanking.dailyScores]. now rewrite !length_map.
Qed.

(** The average of a non-empty week: the total over the length, rounded. *)
Lemma averageScore_rounds :
  weatherData <> [] ->
  exists z,
    ActivityRanking.averageScore ranking = Finite (inject_Z z) /\
    Spec.roundsTo (Spec.mean (Spec.scoreValues ranking)) z.
Proof.
  intros Hne.
  destruct (totalScore_Finite _ _ 0%Q dailyScores_values) as (t & Ht & Heq).
  assert (Hlen : List.length (ActivityRanking.dailyScores ranking)
                 = List.length (Spec.scoreValues ranking)).
  { unfold Spec.scoreValues. now rewrite length_map. }
  assert (Hpos : (0 < inject_Z (Z.of_nat (List.length (Spec.scoreValues ranking))))%Q).
  { apply length_positive. intros Hnil.
    apply (f_equal (@List.length Q)) in Hnil.
    rewrite scoreValues_length in Hnil. destruct weatherData; [congruence | discriminate]. }
  exists (Qfloor (t / inject_Z (Z.of_nat (List.length (Spec.scoreValues ranking)))
                  + (1 # 2))).
  split.
  - unfold ranking, rankActivity in *.
    cbn [ActivityRanking.averageScore ActivityRanking.dailyScores] in *.
    rewrite Ht. unfold JS.length. rewrite Hlen. cbn [div].
    destruct (Qeq_bool _ 0) eqn:E.
    + apply Qeq_bool_iff in E. lra.
    + reflexivity.
  - eapply roundsTo_Qeq; [| apply roundsTo_floor].
    unfold Spec.mean. rewrite Heq. field. lra.
Qed.

End RankActivity.

(** ** The rankings *)

Lemma activities_within (activity : Activity.t) :
  In activity activities ->
  forall day, within 0 100 (Activity.scoreFn activity day).
Proof.
  intros Hin day. unfold activities in Hin. simpl in Hin.
  destruct Hin as [<- | [<- | [<- | [<- | []]]]]; cbn [Activity.scoreFn].
  - apply scoreSkiing_within.
  - apply scoreSurfing_within.
  - apply scoreOutdoorSightseeing_within.
  - apply within_weaken with (lo := 50%Q) (hi := 100%Q); try lra.
    apply scoreIndoorSightseeing_within.
Qed.

Lemma calculateActivityRankings_In (weatherData : list DailyWeather.t)
    (r : ActivityRanking.t) :
  In r (calculateActivityRankings weatherData) <->
  exists activity, In activity activities /\ r = rankActivity weatherData activity.
Proof.
  unfold calculateActivityRankings. rewrite in_map_iff.
  split; intros (a & H1 & H2); exists a; intuition.
Qed.

Lemma getConditionDescription_classify (q : Q) :
  getConditionDescription (Finite q) = Spec.classify q.
Proof.
  assert (Hle : forall k : Q, (Finite q >=? Finite k) = Qle_bool k q).
  { intros k. unfold ge. apply eq_true_iff_eq.
    rewrite le_Finite. symmetry. apply Qle_bool_iff. }
  unfold getConditionDescription, Spec.classify.
  now rewrite !Hle.
Qed.

(** C8: for every input, [calculateActivityRankings] returns one ranking per
    activity in the fixed order Skiing, Surfing, Outdoor Sightseeing, Indoor
    Sightseeing, whatever the scores are, and the [dailyScores] of each
    ranking has one entry per input day, in the order of the input, carrying
    the date of that day. *)
Theorem rankings_follow_enumeration (weatherData : list DailyWeather.t) :
  map ActivityRanking.activity (calculateActivityRankings weatherData)
  = Spec.enumeration /\
  Forall (fun r =>
            List.length (ActivityRanking.dailyScores r)
            = List.length weatherData /\
            map ActivityDayScore.date (ActivityRanking.dailyScores r)
            = map DailyWeather.date weatherData)
         (calculateActivityRankings weatherData).
Proof.
  split; [reflexivity |].
  apply Forall_forall. intros r Hr.
  apply calculateActivityRankings_In in Hr. destruct Hr as (a & _ & ->).
  unfold rankActivity. cbn [ActivityRanking.dailyScores].
  rewrite length_map, map_map. split; reflexivity.
Qed.

(** The order of the output is the order of the table even when the scores
    are not sorted. *)
Example rankings_fair :
  map (fun r => (ActivityRanking.activity r, ActivityRanking.averageScore r))
      (calculateActivityRankings [Sample.fair])
  = [("Skiing", 0); ("Surfing", 95);
     ("Outdoor Sightseeing", 100); ("Indoor Sightseeing", 70)].
Proof. reflexivity. Qed.

(** C9: for every day of every ranking, the [conditions] label is
    [getConditionDescription] of the stored [score] of that day; the score is
    finite and the label is "Great" from 75, "Good" from 60, "OK" from 40
    and "Poor" below. *)
Theorem conditions_match_score (weatherData : list DailyWeather.t) :
  Forall (fun r =>
            Forall (fun d =>
                      ActivityDayScore.conditions d
                      = getConditionDescription (ActivityDayScore.score d) /\
                      ActivityDayScore.score d
                      = Finite (valueOf (ActivityDayScore.score d)) /\
                      ActivityDayScore.conditions d
                      = Spec.classify (valueOf (ActivityDayScore.score d)))
                   (ActivityRanking.dailyScores r))
         (calculateActivityRankings weatherData).
Proof.
  apply Forall_forall. intros r Hr.
  apply calculateActivityRankings_In in Hr. destruct Hr as (a & Ha & ->).
  apply Forall_forall. intros d Hd.
  apply dailyScores_In in Hd. destruct Hd as (day & _ & ->).
  cbn [ActivityDayScore.conditions ActivityDayScore.score].
  destruct (within_valueOf _ _ _ (activities_within a Ha day)) as [Hfin _].
  repeat split; try assumption.
  rewrite Hfin at 1. apply getConditionDescription_classify.
Qed.

Section StoredScores.

Variable activity : Activity.t.
Variable weatherData : list DailyWeather.t.
Hypothesis nonempty : weatherData <> [].

Let ranking := rankActivity weatherData activity.




End StoredScores.






(** A week of two days: the means 25, 60, 79.7 and 77.5 become 25, 60, 80
    and 78. *)
Example averages_two_days :
  map ActivityRanking.averageScore
      (calculateActivityRankings [Sample.snowy; Sample.drizzle])
  = [25; 60; 80; 78].
Proof. reflexivity. Qed.

(** ** Indoor sightseeing *)

Lemma not_poor_from_40 (q : Q) :
  (40 <= q)%Q -> getConditionDescription (Finite q) <> "Poor".
Proof.
  intros Hq. rewrite getConditionDescription_classify. unfold Spec.classify.
  destruct (Qle_bool 75 q); [discriminate |].
  destruct (Qle_bool 60 q); [discriminate |].
  destruct (Qle_bool 40 q) eqn:E; [discriminate |].
  apply Qle_bool_iff in Hq. congruence.
Qed.

(** The average of an empty week of indoor sightseeing is [NaN], which is
    not at least 50. *)
Lemma indoor_average_of_empty_week :
  exists r,
    In r (calculateActivityRankings []) /\
    ActivityRanking.activity r = "Indoor Sightseeing" /\
    ActivityRanking.averageScore r = NaN /\
    (ActivityRanking.averageScore r >=? 50) = false.
Proof.
  exists (rankActivity [] (Activity.make "Indoor Sightseeing" scoreIndoorSightseeing)).
  repeat split. simpl. tauto.
Qed.

(** C10: on every weather record [scoreIndoorSightseeing] returns a value in
    [50, 100], so no day of the Indoor Sightseeing ranking is labelled
    "Poor", and over every non-empty day sequence the [averageScore] of the
    activity lies in [50, 100]. *)
Theorem indoor_sightseeing_floor :
  (forall weather : DailyWeather.t,
      within 50 100 (scoreIndoorSightseeing weather) /\
      getConditionDescription (scoreIndoorSightseeing weather) <> "Poor") /\
  (forall (weatherData : list DailyWeather.t) (r : ActivityRanking.t),
      In r (calculateActivityRankings weatherData) ->
      ActivityRanking.activity r = "Indoor Sightseeing" ->
      Forall (fun d => ActivityDayScore.conditions d <> "Poor")
             (ActivityRanking.dailyScores r) /\
      (weatherData <> [] -> within 50 100 (ActivityRanking.averageScore r))).
Proof.
  assert (Hday : forall weather : DailyWeather.t,
             within 50 100 (scoreIndoorSightseeing weather) /\
             getConditionDescription (scoreIndoorSightseeing weather) <> "Poor").
  { intros weather. pose proof (scoreIndoorSightseeing_within weather) as H.
    split; [exact H |].
    apply within_Finite in H. destruct H as (q & -> & Hq).
    apply not_poor_from_40. lra. }
  split; [exact Hday |].
  intros weatherData r Hr Hname.
  apply calculateActivityRankings_In in Hr. destruct Hr as (a & Ha & ->).
  unfold activities in Ha. simpl in Ha.
  destruct Ha as [<- | [<- | [<- | [<- | []]]]]; try discriminate Hname.
  set (indoor := Activity.make "Indoor Sightseeing" scoreIndoorSightseeing).
  assert (Hin : forall day, within 50 100 (Activity.scoreFn indoor day))
    by (intros day; apply scoreIndoorSightseeing_within).
  split.
  - apply Forall_forall. intros d Hd.
    apply dailyScores_In in Hd. destruct Hd as (day & _ & ->).
    apply Hday.
  - intros Hne.
    destruct (averageScore_rounds indoor 50%Q 100%Q Hin weatherData Hne)
      as (z & -> & Hz).
    pose proof (scoreValues_within indoor 50%Q 100%Q Hin weatherData) as Hall.
    assert (Hnil : Spec.scoreValues (rankActivity weatherData indoor) <> []).
    { intros E. apply (f_equal (@List.length Q)) in E.
      rewrite scoreValues_length in E.
      destruct weatherData; [congruence | discriminate]. }
    pose proof (mean_bounds 50%Q 100%Q _ Hnil Hall) as Hmean.
    pose proof (roundsTo_between 50 100 z _ Hz Hmean) as [Hlo Hhi].
    cbn [within]. rewrite (Zle_Qle 50 z) in Hlo. rewrite (Zle_Qle z 100) in Hhi.
    split; assumption.
Qed.

Lemma indoor_sightseeing_floor_witness :
  within 50 100
    (ActivityRanking.averageScore
       (rankActivity [Sample.fair; Sample.blizzard]
          (Activity.make "Indoor Sightseeing" scoreIndoorSightseeing))).
Proof.
  apply (proj2 indoor_sightseeing_floor [Sample.fair; Sample.blizzard]).
  - simpl. tauto.
  - reflexivity.
  - discriminate.
Defined.

(** ** The empty week *)

(** On the empty sequence the call throws nothing: it returns four rankings
    whose [averageScore] is [NaN], the rounding of [0 / 0]. *)
Lemma empty_week_returns_NaN :
  (forall error, Call.calculateActivityRankings [] <> Call.Throw error) /\
  exists rankings,
    Call.calculateActivityRankings [] = Call.Normal rankings /\
    List.length rankings = 4%nat /\
    Forall (fun r => ActivityRanking.averageScore r = NaN) rankings.
Proof.
  split; [discriminate |].
  exists (calculateActivityRankings []).
  repeat split. repeat constructor.
Qed.

(** C1: for the empty input sequence [calculateActivityRankings] raises no
    error; it completes normally with one ranking per activity, in the order
    of the enumeration, each with an empty [dailyScores]. *)
Theorem empty_week_completes_normally :
  exists rankings,
    Call.calculateActivityRankings [] = Call.Normal rankings /\
    map ActivityRanking.activity rankings = Spec.enumeration /\
    Forall (fun r => ActivityRanking.dailyScores r = []) rankings.
Proof.
  exists (calculateActivityRankings []).
  repeat split. repeat constructor.
Qed.

(** ** Fractional daily scores *)

(** C2: a day with 0.3 mm of rain gives Outdoor Sightseeing the score
    [60 + 20 + 20 - 0.3 * 2 = 99.4], and the ranking stores that value as it
    is: the [score] field of the day is not an integer. *)
Theorem drizzle_score_is_fractional :
  same (scoreOutdoorSightseeing Sample.drizzle) (Finite 99.4) /\
  integral (scoreOutdoorSightseeing Sample.drizzle) = false /\
  exists r d,
    In r (calculateActivityRankings [Sample.drizzle]) /\
    ActivityRanking.activity r = "Outdoor Sightseeing" /\
    In d (ActivityRanking.dailyScores r) /\
    ActivityDayScore.score d = scoreOutdoorSightseeing Sample.drizzle /\
    integral (ActivityDayScore.score d) = false.
Proof.
  split; [reflexivity |]. split; [reflexivity |].
  exists (rankActivity [Sample.drizzle]
            (Activity.make "Outdoor Sightseeing" scoreOutdoorSightseeing)).
  exists (ActivityDayScore.make
            "2024-05-02" (scoreOutdoorSightseeing Sample.drizzle) "Great").
  split; [simpl; tauto |]. split; [reflexivity |].
  split; [left; reflexivity |]. split; reflexivity.
Qed.

(** * Further properties of the scoring rules *)

Section ClampOrder.

Lemma le_refl_Finite (q : Q) : (Finite q <=? Finite q) = true.
Proof. apply le_Finite. apply Qle_refl. Qed.

(** The clamp keeps the order of finite scores. *)
Lemma clamp_mono (a b : Q) :
  (a <= b)%Q -> (clamp (Finite a) <=? clamp (Finite b)) = true.
Proof.
  intros Hab.
  destruct (clamp_cases a) as [[Ha ->] | [(Ha1 & Ha2 & ->) | [Ha ->]]];
    destruct (clamp_cases b) as [[Hb ->] | [(Hb1 & Hb2 & ->) | [Hb ->]]];
    apply le_Finite; lra.
Qed.

Lemma clamp_floor (q : Q) : (clamp NegInfinity <=? clamp (Finite q)) = true.
Proof.
  rewrite clamp_NegInfinity.
  destruct (clamp_cases q) as [[H ->] | [(H1 & H2 & ->) | [H ->]]];
    apply le_Finite; lra.
Qed.

(** A finite score between [lo] and [hi], themselves in [0,100], stays
    between them. *)
Lemma clamp_within_between (lo hi q : Q) :
  (0 <= lo)%Q -> (hi <= 100)%Q -> (lo <= q <= hi)%Q ->
  within lo hi (clamp (Finite q)).
Proof.
  intros H0 H100 Hq.
  destruct (clamp_cases q) as [[H ->] | [(H1 & H2 & ->) | [H ->]]];
    simpl; lra.
Qed.

(** A finite score at most [hi] is clamped into [0, hi]. *)
Lemma clamp_at_most (hi q : Q) :
  (0 <= hi)%Q -> (hi <= 100)%Q -> (q <= hi)%Q ->
  within 0 hi (clamp (Finite q)).
Proof.
  intros H0 H100 Hq.
  destruct (clamp_cases q) as [[H ->] | [(H1 & H2 & ->) | [H ->]]];
    simpl; lra.
Qed.

End ClampOrder.

(** ** Skiing *)

(** X1: Skiing never scores above 80: the snow bonus is capped at 50 and the
    cold bonus is 30. *)
Theorem scoreSkiing_at_most_80 (weather : DailyWeather.t) :
  within 0 80 (scoreSkiing weather).
Proof.
  unfold scoreSkiing.
  destruct (DailyWeather.snowfall weather >? 0) eqn:Hsnow.
  - destruct (snow_bonus_finite weather Hsnow) as (q & -> & Hq).
    branch; js_simpl; apply clamp_at_most; unfold inject_Z; lra.
  - branch; js_simpl; apply clamp_at_most; unfold inject_Z; lra.
Qed.

Lemma skiing_without_snow_is_poor_aux (weather : DailyWeather.t) :
  (DailyWeather.snowfall weather >? 0) = false ->
  within 0 30 (scoreSkiing weather) /\
  getConditionDescription (scoreSkiing weather) = "Poor".
Proof.
  intros Hsnow.
  assert (H : within 0 30 (scoreSkiing weather)).
  { unfold scoreSkiing. rewrite Hsnow.
    branch; js_simpl; apply clamp_at_most; unfold inject_Z; lra. }
  split; [exact H |].
  apply within_Finite in H. destruct H as (q & -> & Hq).
  rewrite getConditionDescription_classify. unfold Spec.classify.
  destruct (Qle_bool 75 q) eqn:E1; [apply Qle_bool_iff in E1; lra |].
  destruct (Qle_bool 60 q) eqn:E2; [apply Qle_bool_iff in E2; lra |].
  destruct (Qle_bool 40 q) eqn:E3; [apply Qle_bool_iff in E3; lra |].
  reflexivity.
Qed.

(** X2: Without snowfall a day scores at most 30 for skiing and is labelled
    "Poor". *)
Theorem skiing_without_snow_is_poor (weather : DailyWeather.t) :
  (DailyWeather.snowfall weather >? 0) = false ->
  within 0 30 (scoreSkiing weather) /\
  getConditionDescription (scoreSkiing weather) = "Poor".
Proof.
  apply skiing_without_snow_is_poor_aux.
Qed.

Lemma skiing_without_snow_is_poor_witness :
  within 0 30 (scoreSkiing Sample.fair) /\
  getConditionDescription (scoreSkiing Sample.fair) = "Poor".
Proof.
  apply (skiing_without_snow_is_poor Sample.fair). reflexivity.
Defined.

(** ** Surfing and indoor sightseeing *)

(** X3: Surfing takes one of ten integer values, from 15 to 95. *)
Theorem scoreSurfing_values (weather : DailyWeather.t) :
  In (scoreSurfing weather) [15; 30; 35; 50; 55; 60; 70; 75; 80; 95].
Proof.
  unfold scoreSurfing, surfingRest, surfingWind.
  branch; vm_compute; tauto.
Qed.

Section IndoorValues.

Variable weather : DailyWeather.t.

(** The rain bonus and the fair-weather penalty exclude each other. *)
Lemma indoor_rain_excludes_penalty :
  (DailyWeather.precipitation weather >? 5) = true ->
  (DailyWeather.precipitation weather === 0) = false.
Proof.
  destruct (DailyWeather.precipitation weather) as [| | p |];
    try reflexivity; try discriminate.
  intros H. to_Q. apply not_true_iff_false. intros E.
  apply strict_eq_Finite in E. lra.
Qed.

(** So do the temperature bonus and the penalty. *)
Lemma indoor_extreme_excludes_penalty :
  (DailyWeather.maxTemp weather <? 5) || (DailyWeather.maxTemp weather >? 30)
  = true ->
  (DailyWeather.maxTemp weather >? 15) && (DailyWeather.maxTemp weather <? 25)
  = false.
Proof.
  destruct (DailyWeather.maxTemp weather) as [| | t |];
    try reflexivity; try discriminate.
  intros H. apply orb_true_iff in H. apply not_true_iff_false. intros E.
  destruct H as [H | H]; to_Q; lra.
Qed.

End IndoorValues.

(** X4: Indoor sightseeing takes one of four values: 50 on a fair day, 70, 85
    with one bonus and 100 with both; the penalty never meets a bonus. *)
Theorem scoreIndoorSightseeing_values (weather : DailyWeather.t) :
  In (scoreIndoorSightseeing weather) [50; 70; 85; 100].
Proof.
  unfold scoreIndoorSightseeing.
  destruct (DailyWeather.precipitation weather >? 5) eqn:Hrain;
    destruct ((DailyWeather.maxTemp weather <? 5)
              || (DailyWeather.maxTemp weather >? 30)) eqn:Htemp.
  - rewrite (indoor_rain_excludes_penalty weather Hrain). vm_compute. tauto.
  - rewrite (indoor_rain_excludes_penalty weather Hrain). vm_compute. tauto.
  - rewrite <- !andb_assoc.
    rewrite (indoor_extreme_excludes_penalty weather Htemp).
    rewrite !andb_false_r. vm_compute. tauto.
  - branch; vm_compute; tauto.
Qed.

(** ** More snow, more rain *)

Section Monotone.

(** The snow statement of [scoreSkiing] grows with the snowfall. *)
Lemma snow_step_mono (s1 s2 : number) :
  (s1 <=? s2) = true ->
  exists q1 q2,
    (if s1 >? 0 then 0 + Math.min 50 (s1 * 5) else 0) = Finite q1 /\
    (if s2 >? 0 then 0 + Math.min 50 (s2 * 5) else 0) = Finite q2 /\
    (q1 <= q2)%Q.
Proof.
  assert (Hstep : forall a : Q,
             exists q, (if Finite a >? 0 then 0 + Math.min 50 (Finite a * 5) else 0)
                       = Finite q /\
                       ((a <= 0 /\ q == 0) \/ (0 < a /\ a * 5 < 50 /\ q == a * 5)
                        \/ (0 < a /\ 50 <= a * 5 /\ q == 50))%Q).
  { intros a. destruct (Finite a >? 0) eqn:E.
    - js_simpl. unfold Math.min.
      destruct (Finite (a * 5) <? Finite 50) eqn:E'; js_simpl; to_Q;
        eexists; (split; [reflexivity |]).
      + right; left. repeat split; lra.
      + right; right. repeat split; lra.
    - to_Q. exists 0%Q. split; [reflexivity |]. left. split; lra. }
  destruct s1 as [| | a |], s2 as [| | b |]; intros Hle;
    try discriminate Hle.
  - exists 0%Q, 0%Q. repeat split; lra.
  - destruct (Hstep b) as (q & -> & Hq). exists 0%Q, q.
    repeat split; lra.
  - exists 0%Q, (0 + 50)%Q. repeat split. lra.
  - apply le_Finite in Hle.
    destruct (Hstep a) as (q1 & -> & H1). destruct (Hstep b) as (q2 & -> & H2).
    exists q1, q2. repeat split; lra.
  - destruct (Hstep a) as (q & -> & Hq). exists q, (0 + 50)%Q.
    repeat split; lra.
  - exists (0 + 50)%Q, (0 + 50)%Q. repeat split. lra.
Qed.

End Monotone.

(** X5: More snow never lowers the skiing score of a day. *)
Theorem scoreSkiing_grows_with_snowfall
    (date : string) (maxTemp minTemp precipitation windSpeed cloudCover : number)
    (less more : number) :
  (less <=? more) = true ->
  (scoreSkiing
     (DailyWeather.make date maxTemp minTemp precipitation windSpeed less cloudCover)
   <=? scoreSkiing
     (DailyWeather.make date maxTemp minTemp precipitation windSpeed more cloudCover))
  = true.
Proof.
  intros Hle. unfold scoreSkiing.
  cbn [DailyWeather.snowfall DailyWeather.maxTemp DailyWeather.windSpeed
       DailyWeather.precipitation].
  destruct (snow_step_mono less more Hle) as (q1 & q2 & -> & -> & Hq).
  branch; js_simpl; apply clamp_mono; lra.
Qed.

Lemma scoreSkiing_grows_with_snowfall_witness :
  (scoreSkiing (DailyWeather.make "2024-01-15" 1 (-5) 0 10 4 20)
   <=? scoreSkiing (DailyWeather.make "2024-01-15" 1 (-5) 0 10 12 20))
  = true.
Proof.
  apply (scoreSkiing_grows_with_snowfall "2024-01-15" 1 (-5) 0 10 20 4 12).
  reflexivity.
Defined.

Section Rain.

(** The rain statement of [scoreOutdoorSightseeing] on a finite score:
    the more it rains the lower the clamped result. *)
Lemma rain_step_anti (less more : number) (c : Q) :
  (less <=? more) = true ->
  (clamp (if more >? 0 then Finite c - more * 2 else Finite c)
   <=? clamp (if less >? 0 then Finite c - less * 2 else Finite c)) = true.
Proof.
  assert (Hstep : forall p : Q,
             exists q, (if Finite p >? 0 then Finite c - Finite p * 2 else Finite c)
                       = Finite q /\
                       ((p <= 0 /\ q == c) \/ (0 < p /\ q == c - p * 2))%Q).
  { intros p. destruct (Finite p >? 0) eqn:E; js_simpl; to_Q;
      eexists; (split; [reflexivity |]); [right | left]; split; lra. }
  destruct less as [| | a |], more as [| | b |]; intros Hle;
    try discriminate Hle.
  - apply clamp_mono. lra.
  - destruct (Hstep b) as (q & -> & Hq).
    change (if NegInfinity >? 0 then Finite c - NegInfinity * 2 else Finite c)
      with (Finite c).
    apply clamp_mono. lra.
  - apply (clamp_floor c).
  - apply le_Finite in Hle.
    destruct (Hstep a) as (q1 & -> & H1). destruct (Hstep b) as (q2 & -> & H2).
    apply clamp_mono. lra.
  - destruct (Hstep a) as (q & -> & Hq). apply (clamp_floor q).
  - reflexivity.
Qed.

End Rain.

(** X6: More rain never raises the outdoor sightseeing score of a day. *)
Theorem scoreOutdoorSightseeing_falls_with_rain
    (date : string) (maxTemp minTemp windSpeed snowfall cloudCover : number)
    (less more : number) :
  (less <=? more) = true ->
  (scoreOutdoorSightseeing
     (DailyWeather.make date maxTemp minTemp more windSpeed snowfall cloudCover)
   <=? scoreOutdoorSightseeing
     (DailyWeather.make date maxTemp minTemp less windSpeed snowfall cloudCover))
  = true.
Proof.
  intros Hle. unfold scoreOutdoorSightseeing.
  cbn [DailyWeather.cloudCover DailyWeather.maxTemp DailyWeather.precipitation].
  destruct (cloudCover <? 40); [| destruct (cloudCover >? 80)];
    (destruct ((maxTemp >=? 15) && (maxTemp <=? 28));
     [| destruct ((maxTemp <? 5) || (maxTemp >? 35))]);
    js_simpl; apply rain_step_anti; exact Hle.
Qed.

Lemma scoreOutdoorSightseeing_falls_with_rain_witness :
  (scoreOutdoorSightseeing (DailyWeather.make "2024-05-02" 20 10 12 5 0 20)
   <=? scoreOutdoorSightseeing
         (DailyWeather.make "2024-05-02" 20 10 (Finite 0.3) 5 0 20))
  = true.
Proof.
  apply (scoreOutdoorSightseeing_falls_with_rain
           "2024-05-02" 20 10 5 0 20 (Finite 0.3) 12).
  reflexivity.
Defined.

(** * Further properties of the aggregation *)

Section Averages.

Variable activity : Activity.t.
Hypothesis listed : In activity activities.

Variable weatherData : list DailyWeather.t.
Hypothesis nonempty : weatherData <> [].

Lemma scoreValues_between (lo hi : Q) :
  (forall day, In day weatherData ->
               within lo hi (Activity.scoreFn activity day)) ->
  Forall (fun q => lo <= q <= hi)%Q
         (Spec.scoreValues (rankActivity weatherData activity)).
Proof.
  intros Hdays. unfold Spec.scoreValues. apply Forall_map.
  apply Forall_forall. intros d Hd.
  apply dailyScores_In in Hd. destruct Hd as (day & Hday & ->).
  cbn [ActivityDayScore.score].
  exact (proj2 (within_valueOf lo hi _ (Hdays day Hday))).
Qed.

Lemma scoreValues_nonempty :
  Spec.scoreValues (rankActivity weatherData activity) <> [].
Proof.
  intros E. apply (f_equal (@List.length Q)) in E.
  rewrite scoreValues_length in E.
  destruct weatherData; [now apply nonempty | discriminate].
Qed.

Lemma averageScore_between_aux (lo hi : Z) :
  (forall day, In day weatherData ->
               within (inject_Z lo) (inject_Z hi) (Activity.scoreFn activity day)) ->
  exists z : Z,
    ActivityRanking.averageScore (rankActivity weatherData activity)
    = Finite (inject_Z z) /\ (lo <= z <= hi)%Z.
Proof.
  intros Hdays.
  destruct (averageScore_rounds activity 0%Q 100%Q
              (activities_within activity listed) weatherData nonempty)
    as (z & Hz & Hround).
  exists z. split; [exact Hz |].
  apply roundsTo_between with (x := Spec.mean (Spec.scoreValues (rankActivity weatherData activity))).
  - exact Hround.
  - apply mean_bounds; [apply scoreValues_nonempty | now apply scoreValues_between].
Qed.

End Averages.

(** X7: Over a non-empty week, when every day of an activity scores between two
    integers the average is an integer between them: rounding never leaves
    the range of the daily scores. *)
Theorem averageScore_between
    (activity : Activity.t) (weatherData : list DailyWeather.t) (lo hi : Z) :
  In activity activities ->
  weatherData <> [] ->
  (forall day, In day weatherData ->
               within (inject_Z lo) (inject_Z hi) (Activity.scoreFn activity day)) ->
  exists z : Z,
    ActivityRanking.averageScore (rankActivity weatherData activity)
    = Finite (inject_Z z) /\ (lo <= z <= hi)%Z.
Proof.
  intros Hin Hne Hdays. now apply averageScore_between_aux.
Qed.

Lemma averageScore_between_witness :
  exists z : Z,
    ActivityRanking.averageScore
      (rankActivity [Sample.fair; Sample.breezy]
         (Activity.make "Surfing" scoreSurfing))
    = Finite (inject_Z z) /\ (70 <= z <= 95)%Z.
Proof.
  apply (averageScore_between
           (Activity.make "Surfing" scoreSurfing)
           [Sample.fair; Sample.breezy] 70 95).
  - simpl. tauto.
  - discriminate.
  - intros day [<- | [<- | []]]; vm_compute; split; discriminate.
Defined.

(** X8: Over a non-empty week every [averageScore] is an integer from 0 to 100. *)
Theorem averageScore_integer_0_100 (weatherData : list DailyWeather.t) :
  weatherData <> [] ->
  Forall (fun r =>
            exists z : Z,
              ActivityRanking.averageScore r = Finite (inject_Z z) /\
              (0 <= z <= 100)%Z)
         (calculateActivityRankings weatherData).
Proof.
  intros Hne. apply Forall_forall. intros r Hr.
  apply calculateActivityRankings_In in Hr. destruct Hr as (a & Ha & ->).
  apply averageScore_between_aux; try assumption.
  intros day _. now apply activities_within.
Qed.

Lemma averageScore_integer_0_100_witness :
  Forall (fun r =>
            exists z : Z,
              ActivityRanking.averageScore r = Finite (inject_Z z) /\
              (0 <= z <= 100)%Z)
         (calculateActivityRankings [Sample.drizzle; Sample.blizzard]).
Proof.
  apply (averageScore_integer_0_100 [Sample.drizzle; Sample.blizzard]).
  discriminate.
Defined.

(** X9: A week whose days all score the same integer averages to that
    integer, however the score is computed: [0.5] mm of rain on seven days
    gives outdoor sightseeing 99 each day and 99 on average. *)
Theorem averageScore_of_equal_days
    (activity : Activity.t) (weatherData : list DailyWeather.t) (k : Z) :
  In activity activities ->
  weatherData <> [] ->
  (forall day, In day weatherData ->
               same (Activity.scoreFn activity day) (Finite (inject_Z k))) ->
  ActivityRanking.averageScore (rankActivity weatherData activity)
  = Finite (inject_Z k).
Proof.
  intros Hin Hne Hdays.
  destruct (averageScore_between_aux activity Hin weatherData Hne k k)
    as (z & -> & Hz).
  - intros day Hday. pose proof (Hdays day Hday) as H.
    destruct (Activity.scoreFn activity day); simpl in H |- *; try tauto. lra.
  - replace z with k by lia. reflexivity.
Qed.

Lemma averageScore_of_equal_days_witness :
  ActivityRanking.averageScore
    (rankActivity SampleWeek.showers
       (Activity.make "Outdoor Sightseeing" scoreOutdoorSightseeing))
  = Finite (inject_Z 99).
Proof.
  apply (averageScore_of_equal_days
           (Activity.make "Outdoor Sightseeing" scoreOutdoorSightseeing)
           SampleWeek.showers 99).
  - simpl. tauto.
  - discriminate.
  - intros day Hday. apply repeat_spec in Hday. subst day. reflexivity.
Defined.

(** ** Recommendations *)

Lemma ge_integer (z k : Z) :
  (Finite (inject_Z z) >=? Finite (inject_Z k)) = (k <=? z)%Z.
Proof.
  unfold ge. apply eq_true_iff_eq.
  rewrite le_Finite, <- Zle_Qle. symmetry. apply Z.leb_le.
Qed.

(** The recommendation of an integer average, by its two thresholds. *)
Lemma getRecommendation_integer (activity : string) (z : Z) :
  getRecommendation activity (Finite (inject_Z z))
  = if (70 <=? z)%Z then "Perfect week for " ++ activity ++ "!"
    else if (50 <=? z)%Z then "Decent conditions for " ++ activity ++ " this week."
    else "Not the best week for " ++ activity ++ ".".
Proof.
  unfold getRecommendation.
  change (Finite 70) with (Finite (inject_Z 70)).
  change (Finite 50) with (Finite (inject_Z 50)).
  now rewrite !ge_integer.
Qed.

(** X10: Over a non-empty week indoor sightseeing is always recommended: its
    text is the "Perfect week" or the "Decent conditions" one, never "Not
    the best week". *)
Theorem indoor_sightseeing_is_recommended (weatherData : list DailyWeather.t) :
  weatherData <> [] ->
  let r := rankActivity weatherData
             (Activity.make "Indoor Sightseeing" scoreIndoorSightseeing) in
  In r (calculateActivityRankings weatherData) /\
  (ActivityRanking.recommendation r = "Perfect week for Indoor Sightseeing!" \/
   ActivityRanking.recommendation r
   = "Decent conditions for Indoor Sightseeing this week.").
Proof.
  intros Hne r. split; [unfold calculateActivityRankings; simpl; tauto |].
  assert (Hin : In (Activity.make "Indoor Sightseeing" scoreIndoorSightseeing)
                   activities) by (simpl; tauto).
  destruct (averageScore_between_aux _ Hin weatherData Hne 50 100)
    as (z & Hz & Hlo & Hhi).
  { intros day _. apply scoreIndoorSightseeing_within. }
  assert (Hrec : ActivityRanking.recommendation r
                 = getRecommendation "Indoor Sightseeing"
                     (ActivityRanking.averageScore r)) by reflexivity.
  rewrite Hrec. subst r. rewrite Hz, getRecommendation_integer.
  destruct (70 <=? z)%Z; [left; reflexivity |].
  destruct (50 <=? z)%Z eqn:E; [right; reflexivity |].
  apply Z.leb_gt in E. lia.
Qed.

Lemma indoor_sightseeing_is_recommended_witness :
  let r := rankActivity [Sample.blizzard]
             (Activity.make "Indoor Sightseeing" scoreIndoorSightseeing) in
  In r (calculateActivityRankings [Sample.blizzard]) /\
  (ActivityRanking.recommendation r = "Perfect week for Indoor Sightseeing!" \/
   ActivityRanking.recommendation r
   = "Decent conditions for Indoor Sightseeing this week.").
Proof.
  apply (indoor_sightseeing_is_recommended [Sample.blizzard]). discriminate.
Defined.

(** ** The weather summary and the skiing ranking *)

Lemma length_zero {A : Type} (xs : list A) : JS.length xs = 0 -> xs = [].
Proof.
  unfold JS.length. intros H. injection H as H.
  destruct xs; [reflexivity | discriminate].
Qed.

(** X11: When the summary of a week counts no snow day, every day of the skiing
    ranking is "Poor", its average is an integer of at most 30 and its
    recommendation is "Not the best week for Skiing." *)
Theorem week_without_snow_days
    (weatherData : list DailyWeather.t) (stats : WeatherSummary.Stats) :
  WeatherSummary.statistics weatherData = Some stats ->
  WeatherSummary.snowDays stats = 0 ->
  let r := rankActivity weatherData (Activity.make "Skiing" scoreSkiing) in
  Forall (fun d => ActivityDayScore.conditions d = "Poor")
         (ActivityRanking.dailyScores r) /\
  (exists z : Z,
      ActivityRanking.averageScore r = Finite (inject_Z z) /\ (0 <= z <= 30)%Z) /\
  ActivityRanking.recommendation r = "Not the best week for Skiing.".
Proof.
  intros Hstats Hsnow r.
  assert (Hne : weatherData <> []).
  { intros ->. discriminate Hstats. }
  assert (Hdays : forall day, In day weatherData ->
                              (DailyWeather.snowfall day >? 0) = false).
  { destruct weatherData as [| d0 rest]; [congruence |].
    cbn [WeatherSummary.statistics] in Hstats. injection Hstats as <-.
    change (JS.length (filter (fun d => DailyWeather.snowfall d >? 0) (d0 :: rest))
            = 0) in Hsnow.
    apply length_zero in Hsnow.
    intros day Hday. apply not_true_iff_false. intros Htrue.
    assert (Hf : In day (filter (fun d => DailyWeather.snowfall d >? 0) (d0 :: rest)))
      by (apply filter_In; auto).
    rewrite Hsnow in Hf. exact Hf. }
  assert (Hin : In (Activity.make "Skiing" scoreSkiing) activities)
    by (simpl; tauto).
  destruct (averageScore_between_aux _ Hin weatherData Hne 0 30)
    as (z & Hz & Hlo & Hhi).
  { intros day Hday. apply skiing_without_snow_is_poor_aux. now apply Hdays. }
  repeat split.
  - apply Forall_forall. intros d Hd.
    apply dailyScores_In in Hd. destruct Hd as (day & Hday & ->).
    cbn [ActivityDayScore.conditions Activity.scoreFn].
    apply skiing_without_snow_is_poor_aux. now apply Hdays.
  - exists z. subst r. auto.
  - assert (Hrec : ActivityRanking.recommendation r
                   = getRecommendation "Skiing" (ActivityRanking.averageScore r))
      by reflexivity.
    rewrite Hrec. subst r. rewrite Hz, getRecommendation_integer.
    destruct (70 <=? z)%Z eqn:E1; [apply Z.leb_le in E1; lia |].
    destruct (50 <=? z)%Z eqn:E2; [apply Z.leb_le in E2; lia |].
    reflexivity.
Qed.

Lemma week_without_snow_days_witness :
  let r := rankActivity [Sample.fair; Sample.breezy]
             (Activity.make "Skiing" scoreSkiing) in
  Forall (fun d => ActivityDayScore.conditions d = "Poor")
         (ActivityRanking.dailyScores r) /\
  (exists z : Z,
      ActivityRanking.averageScore r = Finite (inject_Z z) /\ (0 <= z <= 30)%Z) /\
  ActivityRanking.recommendation r = "Not the best week for Skiing.".
Proof.
  apply (week_without_snow_days [Sample.fair; Sample.breezy] _ eq_refl).
  reflexivity.
Defined.

(** ** The extremes of the summary *)

Section Order.

Lemma le_refl_number (x : number) : x <> NaN -> (x <=? x) = true.
Proof.
  destruct x as [| | q |]; intros H; try reflexivity; [congruence |].
  apply le_refl_Finite.
Qed.

Lemma le_trans_number (x y z : number) :
  (x <=? y) = true -> (y <=? z) = true -> (x <=? z) = true.
Proof.
  destruct x as [| | a |], y as [| | b |], z as [| | c |];
    intros H1 H2; try discriminate; try reflexivity.
  apply le_Finite. apply le_Finite in H1, H2. lra.
Qed.

Lemma lt_le_number (x y : number) : (x <? y) = true -> (x <=? y) = true.
Proof. unfold le. intros ->. reflexivity. Qed.

Lemma not_lt_le_number (x y : number) :
  x <> NaN -> y <> NaN -> (x <? y) = false -> (y <=? x) = true.
Proof.
  destruct x as [| | a |], y as [| | b |]; intros Hx Hy H;
    try congruence; try reflexivity; try discriminate.
  apply le_Finite. now apply lt_Finite_false in H.
Qed.

(** [Math.max] and [Math.min] of two numbers, neither [NaN]. *)
Lemma max_spec (x y : number) :
  x <> NaN -> y <> NaN ->
  (Math.max x y = x \/ Math.max x y = y) /\
  (x <=? Math.max x y) = true /\ (y <=? Math.max x y) = true.
Proof.
  intros Hx Hy.
  assert (E : Math.max x y = if x <? y then y else x)
    by (destruct x, y; try congruence; reflexivity).
  rewrite E. destruct (x <? y) eqn:Hlt.
  - repeat split; auto using lt_le_number, le_refl_number.
  - repeat split; auto using not_lt_le_number, le_refl_number.
Qed.

Lemma min_spec (x y : number) :
  x <> NaN -> y <> NaN ->
  (Math.min x y = x \/ Math.min x y = y) /\
  (Math.min x y <=? x) = true /\ (Math.min x y <=? y) = true.
Proof.
  intros Hx Hy.
  assert (E : Math.min x y = if y <? x then y else x)
    by (destruct x, y; try congruence; reflexivity).
  rewrite E. destruct (y <? x) eqn:Hlt.
  - repeat split; auto using lt_le_number, le_refl_number.
  - repeat split; auto using not_lt_le_number, le_refl_number.
Qed.

Lemma fold_max_spec (xs : list number) :
  forall acc,
    acc <> NaN -> Forall (fun x => x <> NaN) xs ->
    let r := fold_left Math.max xs acc in
    (r = acc \/ In r xs) /\ (acc <=? r) = true /\
    Forall (fun x => (x <=? r) = true) xs.
Proof.
  induction xs as [| x xs IH]; intros acc Hacc Hxs; cbn [fold_left].
  - repeat split; auto using le_refl_number.
  - inversion Hxs as [| ? ? Hx Hrest]; subst.
    destruct (max_spec acc x Hacc Hx) as (Hpick & Hle1 & Hle2).
    assert (Hm : Math.max acc x <> NaN) by (destruct Hpick as [-> | ->]; assumption).
    destruct (IH (Math.max acc x) Hm Hrest) as (Hin & Hle & Hall).
    repeat split.
    + destruct Hin as [-> | Hin]; [| right; right; exact Hin].
      destruct Hpick as [-> | ->]; [left; reflexivity | right; left; reflexivity].
    + eapply le_trans_number; eassumption.
    + constructor; [eapply le_trans_number; eassumption | exact Hall].
Qed.

Lemma fold_min_spec (xs : list number) :
  forall acc,
    acc <> NaN -> Forall (fun x => x <> NaN) xs ->
    let r := fold_left Math.min xs acc in
    (r = acc \/ In r xs) /\ (r <=? acc) = true /\
    Forall (fun x => (r <=? x) = true) xs.
Proof.
  induction xs as [| x xs IH]; intros acc Hacc Hxs; cbn [fold_left].
  - repeat split; auto using le_refl_number.
  - inversion Hxs as [| ? ? Hx Hrest]; subst.
    destruct (min_spec acc x Hacc Hx) as (Hpick & Hle1 & Hle2).
    assert (Hm : Math.min acc x <> NaN) by (destruct Hpick as [-> | ->]; assumption).
    destruct (IH (Math.min acc x) Hm Hrest) as (Hin & Hle & Hall).
    repeat split.
    + destruct Hin as [-> | Hin]; [| right; right; exact Hin].
      destruct Hpick as [-> | ->]; [left; reflexivity | right; left; reflexivity].
    + eapply le_trans_number; eassumption.
    + constructor; [eapply le_trans_number; eassumption | exact Hall].
Qed.

End Order.

Lemma maximum_attained (xs : list number) :
  xs <> [] -> Forall (fun x => x <> NaN) xs ->
  In (JSArray.maximum xs) xs /\
  Forall (fun x => (x <=? JSArray.maximum xs) = true) xs.
Proof.
  intros Hne Hxs. unfold JSArray.maximum.
  destruct (fold_max_spec xs NegInfinity) as (Hin & _ & Hall);
    [discriminate | exact Hxs |].
  split; [| exact Hall].
  destruct Hin as [E | Hin]; [| exact Hin].
  destruct xs as [| x rest]; [congruence |].
  inversion Hall as [| ? ? Hx _]; subst. rewrite E in Hx |- *.
  destruct x; try discriminate Hx. left. reflexivity.
Qed.

Lemma minimum_attained (xs : list number) :
  xs <> [] -> Forall (fun x => x <> NaN) xs ->
  In (JSArray.minimum xs) xs /\
  Forall (fun x => (JSArray.minimum xs <=? x) = true) xs.
Proof.
  intros Hne Hxs. unfold JSArray.minimum.
  destruct (fold_min_spec xs Infinity) as (Hin & _ & Hall);
    [discriminate | exact Hxs |].
  split; [| exact Hall].
  destruct Hin as [E | Hin]; [| exact Hin].
  destruct xs as [| x rest]; [congruence |].
  inversion Hall as [| ? ? Hx _]; subst. rewrite E in Hx |- *.
  destruct x; try discriminate Hx. left. reflexivity.
Qed.

(** X12: On a week whose temperatures are numbers other than [NaN], the highest
    temperature of the summary is the [maxTemp] of one of the days and no
    day exceeds it, and the lowest is the [minTemp] of one of the days and
    no day goes below it. *)
Theorem summary_extremes
    (weatherData : list DailyWeather.t) (stats : WeatherSummary.Stats) :
  WeatherSummary.statistics weatherData = Some stats ->
  Forall (fun d => DailyWeather.maxTemp d <> NaN /\ DailyWeather.minTemp d <> NaN)
         weatherData ->
  (exists d, In d weatherData /\
             WeatherSummary.highestTemp stats = DailyWeather.maxTemp d) /\
  Forall (fun d => (DailyWeather.maxTemp d <=? WeatherSummary.highestTemp stats)
                   = true) weatherData /\
  (exists d, In d weatherData /\
             WeatherSummary.lowestTemp stats = DailyWeather.minTemp d) /\
  Forall (fun d => (WeatherSummary.lowestTemp stats <=? DailyWeather.minTemp d)
                   = true) weatherData.
Proof.
  intros Hstats Hnum.
  assert (Hne : weatherData <> []) by (intros ->; discriminate Hstats).
  assert (Hs : stats = WeatherSummary.make
                 (JSArray.maximum (map DailyWeather.maxTemp weatherData))
                 (JSArray.minimum (map DailyWeather.minTemp weatherData))
                 (JS.length (filter (fun d => DailyWeather.precipitation d >? 1) weatherData))
                 (JS.length (filter (fun d => DailyWeather.snowfall d >? 0) weatherData))).
  { destruct weatherData; [congruence |]. now injection Hstats as <-. }
  subst stats. cbn [WeatherSummary.highestTemp WeatherSummary.lowestTemp].
  assert (Hmax : map DailyWeather.maxTemp weatherData <> [])
    by (destruct weatherData; [congruence | discriminate]).
  assert (Hmin : map DailyWeather.minTemp weatherData <> [])
    by (destruct weatherData; [congruence | discriminate]).
  destruct (maximum_attained _ Hmax) as (Hin1 & Hall1).
  { apply Forall_map. eapply Forall_impl; [| exact Hnum]. now intros d [? ?]. }
  destruct (minimum_attained _ Hmin) as (Hin2 & Hall2).
  { apply Forall_map. eapply Forall_impl; [| exact Hnum]. now intros d [? ?]. }
  apply in_map_iff in Hin1. destruct Hin1 as (d1 & E1 & Hd1).
  apply in_map_iff in Hin2. destruct Hin2 as (d2 & E2 & Hd2).
  rewrite Forall_map in Hall1, Hall2.
  repeat split.
  - exists d1. auto.
  - exact Hall1.
  - exists d2. auto.
  - exact Hall2.
Qed.

Lemma summary_extremes_witness :
  exists stats,
    WeatherSummary.statistics [Sample.snowy; Sample.fair; Sample.blizzard]
    = Some stats /\
    (exists d, In d [Sample.snowy; Sample.fair; Sample.blizzard] /\
               WeatherSummary.highestTemp stats = DailyWeather.maxTemp d) /\
    Forall (fun d => (DailyWeather.maxTemp d <=? WeatherSummary.highestTemp stats)
                     = true) [Sample.snowy; Sample.fair; Sample.blizzard] /\
    (exists d, In d [Sample.snowy; Sample.fair; Sample.blizzard] /\
               WeatherSummary.lowestTemp stats = DailyWeather.minTemp d) /\
    Forall (fun d => (WeatherSummary.lowestTemp stats <=? DailyWeather.minTemp d)
                     = true) [Sample.snowy; Sample.fair; Sample.blizzard].
Proof.
  eexists. split; [reflexivity |].
  apply (summary_extremes [Sample.snowy; Sample.fair; Sample.blizzard] _ eq_refl).
  repeat constructor; discriminate.
Defined.

(** * The weather service *)

Section Strings.

Lemma includes_app_r (a b sub : string) :
  JSString.includes b sub = true -> JSString.includes (a ++ b) sub = true.
Proof.
  intros H. induction a as [| c a IH]; [exact H |].
  cbn [append JSString.includes]. rewrite IH. apply orb_true_r.
Qed.

(** The message of the empty answer passes the test of the [catch] block. *)
Lemma not_found_message_includes (location : string) :
  JSString.includes
    ("Location " ++ JSString.quote ++ location ++ JSString.quote ++ " not found")
    "not found" = true.
Proof.
  do 3 apply includes_app_r. reflexivity.
Qed.

End Strings.

(** X13: An answer without results makes [geocodeLocation] throw
    [Location "<location>" not found], which its own [catch] block lets
    through unwrapped. *)
Theorem geocodeLocation_not_found
    (location : string) (results : option (list GeoResult.t)) :
  results = None \/ results = Some [] ->
  WeatherService.geocodeLocation location (Fulfilled results)
  = Call.Throw ("Location " ++ JSString.quote ++ location
                ++ JSString.quote ++ " not found").
Proof.
  intros [-> | ->]; unfold WeatherService.geocodeLocation;
    now rewrite not_found_message_includes.
Qed.

Lemma geocodeLocation_not_found_witness :
  WeatherService.geocodeLocation "Atlantis" (Fulfilled (Some []))
  = Call.Throw ("Location " ++ JSString.quote ++ "Atlantis"
                ++ JSString.quote ++ " not found").
Proof.
  apply (geocodeLocation_not_found "Atlantis" (Some [])). right. reflexivity.
Defined.

(** X14: [geocodeLocation] completes normally exactly when the answer has at
    least one result; it then returns the coordinates of the first one and
    the display name [<name>, <country>], whatever follows in the list. *)
Theorem geocodeLocation_first_result
    (location : string) (response : settled (option (list GeoResult.t)))
    (coordinates : Coordinates.t) :
  WeatherService.geocodeLocation location response = Call.Normal coordinates
  <->
  exists result rest,
    response = Fulfilled (Some (result :: rest)) /\
    coordinates
    = Coordinates.make
        (GeoResult.latitude result)
        (GeoResult.longitude result)
        (GeoResult.name result ++ ", " ++ GeoResult.country result).
Proof.
  unfold WeatherService.geocodeLocation. split.
  - destruct response as [[[| result rest] |] | message | message];
      try rewrite not_found_message_includes;
      try (destruct (JSString.includes message "not found"));
      try discriminate.
    intros H. injection H as <-. now exists result, rest.
  - intros (result & rest & -> & ->). reflexivity.
Qed.

(** X15: Every error [geocodeLocation] throws either has 'not found' in its
    message, and is then the error of the [try] block as it is, or is
    [Geocoding failed: ] followed by the message of the error the block
    threw: the rejection of the request or a [TypeError] met while reading
    the body. *)
Theorem geocodeLocation_errors
    (location : string) (response : settled (option (list GeoResult.t)))
    (message : string) :
  WeatherService.geocodeLocation location response = Call.Throw message ->
  (JSString.includes message "not found" = true /\
   (forall cause,
       response = Rejected cause \/ response = Unreadable cause ->
       message = cause)) \/
  (exists cause,
      (response = Rejected cause \/ response = Unreadable cause) /\
      JSString.includes cause "not found" = false /\
      message = "Geocoding failed: " ++ cause).
Proof.
  unfold WeatherService.geocodeLocation.
  destruct response as [[[| result rest] |] | cause | cause].
  - rewrite not_found_message_includes. intros H. injection H as <-.
    left. split; [apply not_found_message_includes |].
    intros c [Hc | Hc]; discriminate Hc.
  - discriminate.
  - rewrite not_found_message_includes. intros H. injection H as <-.
    left. split; [apply not_found_message_includes |].
    intros c [Hc | Hc]; discriminate Hc.
  - destruct (JSString.includes cause "not found") eqn:E;
      intros H; injection H as <-.
    + left. split; [exact E |].
      intros c [Hc | Hc]; [discriminate Hc | now injection Hc as <-].
    + right. exists cause. auto.
  - destruct (JSString.includes cause "not found") eqn:E;
      intros H; injection H as <-.
    + left. split; [exact E |].
      intros c [Hc | Hc]; [now injection Hc as <- | discriminate Hc].
    + right. exists cause. auto.
Qed.

Lemma geocodeLocation_errors_witness :
  (JSString.includes
     "Geocoding failed: Cannot read properties of undefined (reading 'results')"
     "not found" = true /\
   (forall cause,
       Unreadable (A := option (list GeoResult.t))
         "Cannot read properties of undefined (reading 'results')"
       = Rejected cause \/
       Unreadable (A := option (list GeoResult.t))
         "Cannot read properties of undefined (reading 'results')"
       = Unreadable cause ->
       "Geocoding failed: Cannot read properties of undefined (reading 'results')"
       = cause)) \/
  (exists cause,
      (Unreadable (A := option (list GeoResult.t))
         "Cannot read properties of undefined (reading 'results')"
       = Rejected cause \/
       Unreadable (A := option (list GeoResult.t))
         "Cannot read properties of undefined (reading 'results')"
       = Unreadable cause) /\
      JSString.includes cause "not found" = false /\
      "Geocoding failed: Cannot read properties of undefined (reading 'results')"
      = "Geocoding failed: " ++ cause).
Proof.
  apply (geocodeLocation_errors "Paris"
           (Unreadable "Cannot read properties of undefined (reading 'results')")).
  reflexivity.
Defined.

Lemma geocodeLocation_first_result_witness :
  WeatherService.geocodeLocation "Paris"
    (Fulfilled (Some [GeoResult.make (Finite 48.85) (Finite 2.35) "Paris" "France";
                      GeoResult.make (Finite 33.66) (Finite (-95.55)) "Paris" "United States"]))
  = Call.Normal (Coordinates.make (Finite 48.85) (Finite 2.35) "Paris, France").
Proof.
  apply (geocodeLocation_first_result "Paris").
  do 2 eexists. split; reflexivity.
Defined.

(** ** The forecast days *)

Section ForecastDays.

Variable daily : Daily.t.

Lemma map_from_dates (dates : list string) :
  forall start,
    map ForecastDay.date
        (JSArray.map_from (WeatherService.forecastDay daily) start dates)
    = dates.
Proof.
  induction dates as [| date rest IH]; intros start; [reflexivity |].
  cbn [JSArray.map_from map]. now rewrite IH.
Qed.

Lemma map_from_nth (dates : list string) :
  forall start index date,
    nth_error dates index = Some date ->
    nth_error (JSArray.map_from (WeatherService.forecastDay daily) start dates) index
    = Some (WeatherService.forecastDay daily date (start + index)).
Proof.
  induction dates as [| d rest IH]; intros start index date H.
  - destruct index; discriminate H.
  - destruct index as [| index]; cbn [JSArray.map_from nth_error] in *.
    + injection H as <-. now rewrite Nat.add_0_r.
    + rewrite (IH (S start) index date H). now rewrite Nat.add_succ_r.
Qed.

(** [v || 0] is a number other than [NaN]: the value itself when it is a
    number other than 0 and [NaN], and 0 otherwise. *)
Lemma or_zero (v : Value.value) :
  exists n,
    Value.or v (Value.Num 0) = Value.Num n /\ n <> NaN /\
    (Value.truthy v = true -> v = Value.Num n) /\
    (Value.truthy v = false -> n = 0).
Proof.
  unfold Value.or. destruct (Value.truthy v) eqn:E.
  - destruct v as [| | [| | q |]]; try discriminate E;
      eexists; repeat split; discriminate.
  - exists 0. repeat split; discriminate.
Qed.

End ForecastDays.

(** X16: A fulfilled forecast request gives one day per entry of [daily.time],
    in order and with that date; the day at an index takes the entry at the
    same index of every array, which is [undefined] when the array is
    shorter. *)
Theorem getWeatherForecast_days (daily : Daily.t) :
  exists days,
    WeatherService.getWeatherForecast (Fulfilled daily) = Call.Normal days /\
    map ForecastDay.date days = Daily.time daily /\
    forall index date,
      nth_error (Daily.time daily) index = Some date ->
      exists day,
        nth_error days index = Some day /\
        ForecastDay.date day = date /\
        ForecastDay.maxTemp day
        = nth index (Daily.temperature_2m_max daily) Value.Undefined /\
        ForecastDay.minTemp day
        = nth index (Daily.temperature_2m_min daily) Value.Undefined /\
        ForecastDay.windSpeed day
        = nth index (Daily.windspeed_10m_max daily) Value.Undefined /\
        ForecastDay.cloudCover day
        = nth index (Daily.cloudcover_mean daily) Value.Undefined.
Proof.
  eexists. split; [reflexivity |]. split.
  - apply map_from_dates.
  - intros index date H.
    exists (WeatherService.forecastDay daily date index). split.
    + unfold JSArray.mapi. now rewrite (map_from_nth daily _ 0 index date H).
    + repeat split.
Qed.

(** X17: In every day of a forecast [precipitation] and [snowfall] are numbers
    and not [NaN], whatever the API sent: an entry that is missing, [null],
    0 or [NaN] becomes 0 and any other number is kept. *)
Theorem getWeatherForecast_defaults (daily : Daily.t) (index : nat) (date : string) :
  nth_error (Daily.time daily) index = Some date ->
  exists days day rain snow,
    WeatherService.getWeatherForecast (Fulfilled daily) = Call.Normal days /\
    nth_error days index = Some day /\
    ForecastDay.precipitation day = Value.Num rain /\ rain <> NaN /\
    ForecastDay.snowfall day = Value.Num snow /\ snow <> NaN /\
    (let sent := nth index (Daily.precipitation_sum daily) Value.Undefined in
     (Value.truthy sent = true -> sent = Value.Num rain) /\
     (Value.truthy sent = false -> rain = 0)) /\
    (let sent := nth index (Daily.snowfall_sum daily) Value.Undefined in
     (Value.truthy sent = true -> sent = Value.Num snow) /\
     (Value.truthy sent = false -> snow = 0)).
Proof.
  intros H.
  destruct (or_zero (nth index (Daily.precipitation_sum daily) Value.Undefined))
    as (rain & Hrain & Hr1 & Hr2 & Hr3).
  destruct (or_zero (nth index (Daily.snowfall_sum daily) Value.Undefined))
    as (snow & Hsnow & Hs1 & Hs2 & Hs3).
  exists (JSArray.mapi (WeatherService.forecastDay daily) (Daily.time daily)),
    (WeatherService.forecastDay daily date index), rain, snow.
  split; [reflexivity |]. split.
  { unfold JSArray.mapi. now rewrite (map_from_nth daily _ 0 index date H). }
  cbn [WeatherService.forecastDay ForecastDay.precipitation ForecastDay.snowfall].
  unfold Value.at_index. repeat split; assumption.
Qed.

Lemma getWeatherForecast_defaults_witness :
  exists days day rain snow,
    WeatherService.getWeatherForecast (Fulfilled SampleResponse.daily)
    = Call.Normal days /\
    nth_error days 1 = Some day /\
    ForecastDay.precipitation day = Value.Num rain /\ rain <> NaN /\
    ForecastDay.snowfall day = Value.Num snow /\ snow <> NaN /\
    (let sent := nth 1 (Daily.precipitation_sum SampleResponse.daily) Value.Undefined in
     (Value.truthy sent = true -> sent = Value.Num rain) /\
     (Value.truthy sent = false -> rain = 0)) /\
    (let sent := nth 1 (Daily.snowfall_sum SampleResponse.daily) Value.Undefined in
     (Value.truthy sent = true -> sent = Value.Num snow) /\
     (Value.truthy sent = false -> snow = 0)).
Proof.
  apply (getWeatherForecast_defaults SampleResponse.daily 1 "2024-03-02").
  reflexivity.
Defined.

Lemma getWeatherForecast_days_witness :
  exists day,
    nth_error (JSArray.mapi (WeatherService.forecastDay SampleResponse.daily)
                 (Daily.time SampleResponse.daily)) 1 = Some day /\
    ForecastDay.date day = "2024-03-02" /\
    ForecastDay.maxTemp day = Value.Null /\
    ForecastDay.minTemp day = Value.Num 1 /\
    ForecastDay.windSpeed day = Value.Num 45 /\
    ForecastDay.cloudCover day = Value.Num 30.
Proof.
  destruct (getWeatherForecast_days SampleResponse.daily) as (days & E & _ & H).
  injection E as <-.
  apply (H 1%nat "2024-03-02"). reflexivity.
Defined.

(** * The resolver *)

Section Resolver.

Variable geocodingApi : string -> settled (option (list GeoResult.t)).
Variable location : string.

Lemma weatherOf_dates (days : list ForecastDay.t) :
  map DailyWeather.date (map Schema.weatherOf days) = map ForecastDay.date days.
Proof. rewrite map_map. reflexivity. Qed.

Lemma rankActivity_dates (activity : Activity.t) (weatherData : list DailyWeather.t) :
  map ActivityDayScore.date
      (ActivityRanking.dailyScores (rankActivity weatherData activity))
  = map DailyWeather.date weatherData.
Proof.
  unfold rankActivity. cbn [ActivityRanking.dailyScores].
  rewrite map_map. reflexivity.
Qed.

End Resolver.

(** X18: Every error of the resolver is [Failed to fetch forecast for
    <location>: <cause>], where the cause is the error of the geocoding
    step or, once that step has succeeded, [Weather forecast failed: ]
    followed by the message of the error the forecast step met: the
    rejection of its request or a [TypeError] on the body. *)
Theorem getActivityForecast_errors
    (geocodingApi : string -> settled (option (list GeoResult.t)))
    (forecastApi : number -> number -> settled Daily.t)
    (location message : string) :
  Schema.getActivityForecast geocodingApi forecastApi location
  = Call.Throw message ->
  exists cause,
    message = "Failed to fetch forecast for " ++ location ++ ": " ++ cause /\
    (WeatherService.geocodeLocation location (geocodingApi location)
     = Call.Throw cause
     \/
     exists coordinates failure,
       WeatherService.geocodeLocation location (geocodingApi location)
       = Call.Normal coordinates /\
       (forecastApi (Coordinates.latitude coordinates)
                    (Coordinates.longitude coordinates)
        = Rejected failure \/
        forecastApi (Coordinates.latitude coordinates)
                    (Coordinates.longitude coordinates)
        = Unreadable failure) /\
       cause = "Weather forecast failed: " ++ failure).
Proof.
  unfold Schema.getActivityForecast.
  destruct (WeatherService.geocodeLocation location (geocodingApi location))
    as [coordinates | cause] eqn:Hgeo.
  - cbn zeta.
    destruct (forecastApi (Coordinates.latitude coordinates)
                          (Coordinates.longitude coordinates))
      as [daily | failure | failure] eqn:Hforecast;
      cbn [WeatherService.getWeatherForecast].
    + discriminate.
    + intros H. injection H as <-.
      eexists. split; [reflexivity |]. right.
      exists coordinates, failure. auto.
    + intros H. injection H as <-.
      eexists. split; [reflexivity |]. right.
      exists coordinates, failure. auto.
  - intros H. injection H as <-. exists cause. auto.
Qed.

Lemma getActivityForecast_errors_witness :
  exists cause,
    "Failed to fetch forecast for Paris: Weather forecast failed: Network Error"
    = "Failed to fetch forecast for " ++ "Paris" ++ ": " ++ cause /\
    (WeatherService.geocodeLocation "Paris" (SampleResponse.geocodingApi "Paris")
     = Call.Throw cause
     \/
     exists coordinates failure,
       WeatherService.geocodeLocation "Paris" (SampleResponse.geocodingApi "Paris")
       = Call.Normal coordinates /\
       (SampleResponse.offline (Coordinates.latitude coordinates)
                               (Coordinates.longitude coordinates)
        = Rejected failure \/
        SampleResponse.offline (Coordinates.latitude coordinates)
                               (Coordinates.longitude coordinates)
        = Unreadable failure) /\
       cause = "Weather forecast failed: " ++ failure).
Proof.
  apply (getActivityForecast_errors
           SampleResponse.geocodingApi SampleResponse.offline "Paris").
  reflexivity.
Defined.

(** X19: When the resolver completes normally, the geocoding step found a place
    and the forecast request was fulfilled; the result carries the display
    name of the place, one day per entry of [daily.time], and the four
    rankings in the order of the enumeration, each with one score per
    forecast day, dated as that day and within [0, 100], also when the API
    sent [null] or too short an array for a field. *)
Theorem getActivityForecast_result
    (geocodingApi : string -> settled (option (list GeoResult.t)))
    (forecastApi : number -> number -> settled Daily.t)
    (location : string) (forecast : ActivityForecast.t) :
  Schema.getActivityForecast geocodingApi forecastApi location
  = Call.Normal forecast ->
  exists coordinates daily,
    WeatherService.geocodeLocation location (geocodingApi location)
    = Call.Normal coordinates /\
    forecastApi (Coordinates.latitude coordinates)
                (Coordinates.longitude coordinates) = Fulfilled daily /\
    ActivityForecast.location forecast = Coordinates.displayName coordinates /\
    map ForecastDay.date (ActivityForecast.dailyWeather forecast)
    = Daily.time daily /\
    map ActivityRanking.activity (ActivityForecast.rankings forecast)
    = Spec.enumeration /\
    Forall (fun r =>
              map ActivityDayScore.date (ActivityRanking.dailyScores r)
              = Daily.time daily /\
              Forall (fun d => within 0 100 (ActivityDayScore.score d))
                     (ActivityRanking.dailyScores r))
           (ActivityForecast.rankings forecast).
Proof.
  unfold Schema.getActivityForecast.
  destruct (WeatherService.geocodeLocation location (geocodingApi location))
    as [coordinates | cause] eqn:Hgeo; [| discriminate].
  cbn zeta.
  destruct (forecastApi (Coordinates.latitude coordinates)
                        (Coordinates.longitude coordinates))
    as [daily | failure | failure] eqn:Hforecast;
    cbn [WeatherService.getWeatherForecast]; [| discriminate | discriminate].
  intros H. injection H as <-.
  exists coordinates, daily.
  cbn [ActivityForecast.location ActivityForecast.dailyWeather
       ActivityForecast.rankings].
  assert (Hdates : map ForecastDay.date
                     (JSArray.mapi (WeatherService.forecastDay daily) (Daily.time daily))
                   = Daily.time daily) by apply map_from_dates.
  repeat split; try assumption; try reflexivity.
  apply Forall_forall. intros r Hr.
  apply calculateActivityRankings_In in Hr. destruct Hr as (a & Ha & ->).
  split.
  - now rewrite rankActivity_dates, weatherOf_dates.
  - apply dailyScores_within. now apply activities_within.
Qed.

Lemma getActivityForecast_result_witness :
  exists forecast coordinates daily,
    Schema.getActivityForecast
      SampleResponse.geocodingApi SampleResponse.forecastApi "Paris"
    = Call.Normal forecast /\
    WeatherService.geocodeLocation "Paris" (SampleResponse.geocodingApi "Paris")
    = Call.Normal coordinates /\
    SampleResponse.forecastApi (Coordinates.latitude coordinates)
                               (Coordinates.longitude coordinates)
    = Fulfilled daily /\
    ActivityForecast.location forecast = Coordinates.displayName coordinates /\
    map ForecastDay.date (ActivityForecast.dailyWeather forecast)
    = Daily.time daily /\
    map ActivityRanking.activity (ActivityForecast.rankings forecast)
    = Spec.enumeration /\
    Forall (fun r =>
              map ActivityDayScore.date (ActivityRanking.dailyScores r)
              = Daily.time daily /\
              Forall (fun d => within 0 100 (ActivityDayScore.score d))
                     (ActivityRanking.dailyScores r))
           (ActivityForecast.rankings forecast).
Proof.
  eexists.
  assert (H := getActivityForecast_result
                 SampleResponse.geocodingApi SampleResponse.forecastApi "Paris"
                 _ eq_refl).
  destruct H as (coordinates & daily & H).
  exists coordinates, daily. split; [reflexivity | exact H].
Defined.

Example forecast_paris :
  match Schema.getActivityForecast
          SampleResponse.geocodingApi SampleResponse.forecastApi "Paris" with
  | Call.Normal forecast =>
      map (fun r => (ActivityRanking.activity r, ActivityRanking.averageScore r))
          (ActivityForecast.rankings forecast)
  | Call.Throw _ => []
  end
  = [("Skiing", 30); ("Surfing", 53);
     ("Outdoor Sightseeing", 44); ("Indoor Sightseeing", 85)].
Proof. reflexivity. Qed.

(** * The components *)

(** X20: The colour of a score agrees with its label up to the bands: a "Good"
    day is blue, an "OK" day orange, a "Poor" day red or gray, and a "Great"
    day green from 80 and blue, as a "Good" one, from 75 to 80. *)
Theorem score_colour_and_label (score : number) :
  (getConditionDescription score = "Good" ->
   ActivityCard.getScoreColor score = "#3b82f6") /\
  (getConditionDescription score = "OK" ->
   ActivityCard.getScoreColor score = "#f59e0b") /\
  (getConditionDescription score = "Poor" ->
   ActivityCard.getScoreColor score = "#ef4444" \/
   ActivityCard.getScoreColor score = "#6b7280") /\
  (getConditionDescription score = "Great" ->
   (score >=? 80) = true /\ ActivityCard.getScoreColor score = "#10b981" \/
   (score >=? 80) = false /\ ActivityCard.getScoreColor score = "#3b82f6").
Proof.
  destruct score as [| | q |]; try (vm_compute; intuition discriminate).
  unfold getConditionDescription, ActivityCard.getScoreColor.
  destruct (Finite q >=? 80) eqn:H80; destruct (Finite q >=? 75) eqn:H75;
    destruct (Finite q >=? 60) eqn:H60; destruct (Finite q >=? 40) eqn:H40;
    destruct (Finite q >=? 20) eqn:H20;
    repeat split; intros H; try discriminate H; auto;
    exfalso; to_Q; lra.
Qed.

Lemma score_colour_and_label_witness :
  (Finite 77 >=? 80) = true /\ ActivityCard.getScoreColor (Finite 77) = "#10b981" \/
  (Finite 77 >=? 80) = false /\ ActivityCard.getScoreColor (Finite 77) = "#3b82f6".
Proof.
  apply (score_colour_and_label (Finite 77)). reflexivity.
Defined.

(** ** The order of the grid *)

Section Sorting.

Import ActivityDashboard.

(** [a] is shown before [b]: its average is at least that of [b]. *)
Let before (a b : ActivityRanking.t) : Prop :=
  (ActivityRanking.averageScore b <=? ActivityRanking.averageScore a) = true.

Let finite (r : ActivityRanking.t) : Prop :=
  exists q, ActivityRanking.averageScore r = Finite q.

Lemma byAverageScore_positive (a b : ActivityRanking.t) :
  finite a -> finite b ->
  (byAverageScore a b >? 0) = true -> before b a.
Proof.
  unfold byAverageScore, before. intros (qa & ->) (qb & ->) H.
  js_simpl. to_Q. apply le_Finite. lra.
Qed.

Lemma byAverageScore_not_positive (a b : ActivityRanking.t) :
  finite a -> finite b ->
  (byAverageScore a b >? 0) = false -> before a b.
Proof.
  unfold byAverageScore, before. intros (qa & ->) (qb & ->) H.
  js_simpl. to_Q. apply le_Finite. lra.
Qed.

Lemma before_trans (a b c : ActivityRanking.t) :
  before a b -> before b c -> before a c.
Proof.
  unfold before. intros H1 H2. eapply le_trans_number; eassumption.
Qed.

Lemma insert_permutation (x : ActivityRanking.t) (xs : list ActivityRanking.t) :
  Permutation (JSArray.insert byAverageScore x xs) (x :: xs).
Proof.
  induction xs as [| y rest IH]; cbn [JSArray.insert]; [reflexivity |].
  destruct (byAverageScore x y >? 0); [| reflexivity].
  rewrite IH. apply perm_swap.
Qed.

Lemma sort_permutation (xs : list ActivityRanking.t) :
  Permutation (JSArray.sort byAverageScore xs) xs.
Proof.
  induction xs as [| x rest IH]; cbn [JSArray.sort]; [reflexivity |].
  rewrite insert_permutation. now constructor.
Qed.

Lemma insert_sorted (x : ActivityRanking.t) (xs : list ActivityRanking.t) :
  finite x -> Forall finite xs ->
  StronglySorted before xs ->
  StronglySorted before (JSArray.insert byAverageScore x xs).
Proof.
  intros Hx. induction xs as [| y rest IH]; intros Hfin Hsorted;
    cbn [JSArray.insert].
  - repeat constructor.
  - inversion Hfin as [| ? ? Hy Hrest]; subst.
    inversion Hsorted as [| ? ? Hsrest Hall]; subst.
    destruct (byAverageScore x y >? 0) eqn:E.
    + constructor; [now apply IH |].
      eapply Permutation_Forall; [symmetry; apply insert_permutation |].
      constructor; [| exact Hall].
      now apply byAverageScore_positive.
    + pose proof (byAverageScore_not_positive x y Hx Hy E) as Hxy.
      constructor; [exact Hsorted |].
      constructor; [exact Hxy |].
      eapply Forall_impl; [| exact Hall].
      intros z Hz. eapply before_trans; eassumption.
Qed.

Lemma sort_sorted (xs : list ActivityRanking.t) :
  Forall finite xs -> StronglySorted before (JSArray.sort byAverageScore xs).
Proof.
  induction xs as [| x rest IH]; intros Hfin; cbn [JSArray.sort].
  - constructor.
  - inversion Hfin as [| ? ? Hx Hrest]; subst.
    apply insert_sorted; [exact Hx | | now apply IH].
    eapply Permutation_Forall; [symmetry; apply sort_permutation | exact Hrest].
Qed.

End Sorting.

(** X21: Over a non-empty week the grid shows the four rankings, none lost or
    repeated, from the highest [averageScore] to the lowest. *)
Theorem displayed_rankings_sorted (weatherData : list DailyWeather.t) :
  weatherData <> [] ->
  let shown := ActivityDashboard.displayed (calculateActivityRankings weatherData) in
  Permutation shown (calculateActivityRankings weatherData) /\
  StronglySorted
    (fun a b => (ActivityRanking.averageScore b <=? ActivityRanking.averageScore a)
                = true)
    shown.
Proof.
  intros Hne shown. split; [apply sort_permutation |].
  apply sort_sorted. apply Forall_forall. intros r Hr.
  apply calculateActivityRankings_In in Hr. destruct Hr as (a & Ha & ->).
  destruct (averageScore_rounds a 0%Q 100%Q (activities_within a Ha) weatherData Hne)
    as (z & Hz & _).
  eexists. exact Hz.
Qed.

Lemma displayed_rankings_sorted_witness :
  let shown := ActivityDashboard.displayed
                 (calculateActivityRankings [Sample.fair; Sample.drizzle]) in
  Permutation shown (calculateActivityRankings [Sample.fair; Sample.drizzle]) /\
  StronglySorted
    (fun a b => (ActivityRanking.averageScore b <=? ActivityRanking.averageScore a)
                = true)
    shown.
Proof.
  apply (displayed_rankings_sorted [Sample.fair; Sample.drizzle]). discriminate.
Defined.

Example displayed_fair :
  map ActivityRanking.activity
      (ActivityDashboard.displayed (calculateActivityRankings [Sample.fair]))
  = ["Outdoor Sightseeing"; "Surfing"; "Indoor Sightseeing"; "Skiing"].
Proof. reflexivity. Qed.
